(** * fastify-synology-chat: message validation, body normalisation,
      dispatch and outbound sending

    A shallow embedding of the plugin (index.js) and of the outbound message
    schema (schemas/message-schema.js).  The platform services the plugin
    calls ([JSON.parse], [JSON.stringify], [URLSearchParams], [fetch]) are
    section variables of the plugin; module [Reference] gives instances of
    the first three, so that the model runs on concrete requests. *)

From Stdlib Require Import String Ascii List ZArith QArith Bool DecimalString.
Import ListNotations.
Set Warnings "-register-all".
Local Close Scope Q_scope.
Local Open Scope string_scope.
Local Open Scope list_scope.

(** ** JSON values

    A JavaScript number is modelled by the exact rational it denotes; IEEE
    rounding, infinities and NaN are outside the model.  An object is the
    sequence of its own properties, in insertion order, with unique keys. *)

Inductive json : Type :=
| JNull
| JBool (b : bool)
| JNum (q : Q)
| JStr (s : string)
| JArr (elems : list json)
| JObj (fields : list (string * json)).

(** A value as a handler may return it: [None] is [undefined]. *)
Definition jsvalue := option json.

Fixpoint lookup {A : Type} (k : string) (fields : list (string * A)) : option A :=
  match fields with
  | [] => None
  | (k', v) :: rest => if String.eqb k k' then Some v else lookup k rest
  end.

Definition has_key {A : Type} (k : string) (fields : list (string * A)) : bool :=
  match lookup k fields with Some _ => true | None => false end.

Definition keys {A : Type} (fields : list (string * A)) : list string :=
  map fst fields.

(** [CreateDataProperty]: define own property [k], replacing the value in
    place when the key is already there (what [JSON.parse] does on a repeated
    member name). *)
Fixpoint obj_define (fields : list (string * json)) (k : string) (v : json)
  : list (string * json) :=
  match fields with
  | [] => [(k, v)]
  | (k', v') :: rest =>
      if String.eqb k k' then (k', v) :: rest else (k', v') :: obj_define rest k v
  end.

(** [result[key] = value] on an object created by the literal [{}].  Its
    prototype is [Object.prototype], whose only accessor is [__proto__]: the
    setter changes the prototype when given an object or [null], ignores any
    other value, and never creates an own property.  Every other key becomes
    (or updates) an own data property. *)
Definition obj_assign (fields : list (string * json)) (k : string) (v : json)
  : list (string * json) :=
  if String.eqb k "__proto__" then fields else obj_define fields k v.

Definition count_key {A : Type} (k : string) (fields : list (string * A)) : nat :=
  length (filter (fun kv => String.eqb k (fst kv)) fields).

(** The value a key has at its last occurrence in a key/value sequence. *)
Definition last_value (k : string) (params : list (string * string)) : option string :=
  lookup k (rev params).

(** [for (const [key, value] of entries) result[key] = value]: the flat
    fields assigned, in order, to the object [result]. *)
Definition fold_fields (params : list (string * string)) (result : list (string * json))
  : list (string * json) :=
  fold_left (fun result kv => obj_assign result (fst kv) (JStr (snd kv))) params result.

(** ** Errors and completions *)

Record error := mkError { message : string; statusCode : option Z }.

(** The completion of a call or of an awaited promise. *)
Inductive result (A : Type) : Type :=
| Ok (a : A)
| Throw (e : error).
Arguments Ok {A} a.
Arguments Throw {A} e.

Definition Error (msg : string) : error := mkError msg None.

(** ** JSON Schema and its validator

    The schemas are data of the repository; the validator that reads them is
    a library.  It is modelled here for the keywords the two schemas use
    ([type], [enum], [format], [properties], [items], [required],
    [additionalProperties], [oneOf]), with their JSON Schema meaning. *)

Inductive jtype := TString | TNumber | TInteger | TArray | TObject.

Inductive schema : Type :=
| Schema (type_ : option jtype) (enum_ : option (list string))
         (format_ : option string) (properties : list (string * schema))
         (items : option schema) (required : list string)
         (additionalProperties : bool)
| OneOf (alternatives : list schema).

(** Builders for the shapes that occur in the source. *)
Definition of_type (t : jtype) : schema := Schema (Some t) None None [] None [] true.
Definition string_enum (vs : list string) : schema :=
  Schema (Some TString) (Some vs) None [] None [] true.
Definition string_format (f : string) : schema :=
  Schema (Some TString) None (Some f) [] None [] true.
Definition array_of (s : schema) : schema :=
  Schema (Some TArray) None None [] (Some s) [] true.
Definition object_of (props : list (string * schema)) (req : list string)
           (additional : bool) : schema :=
  Schema (Some TObject) None None props None req additional.

(** A step of an instance path: a property name or an array index. *)
Inductive seg := Key (k : string) | Idx (i : nat).
Definition path := list seg.



(** The kinds of violation, named after the keyword that fails. *)
Inductive violation :=
| KRequired (missingProperty : string)
| KType (expected : jtype)
| KEnum
| KAdditionalProperties (additionalProperty : string)
| KFormat (format : string)
| KOneOf.

Record verror := mkVerror { at_path : path; kind : violation }.

Definition is_integer (q : Q) : bool :=
  (Z.rem (Qnum q) (Zpos (Qden q)) =? 0)%Z.

Definition has_type (t : jtype) (v : json) : bool :=
  match t, v with
  | TString, JStr _ => true
  | TNumber, JNum _ => true
  | TInteger, JNum q => is_integer q
  | TArray, JArr _ => true
  | TObject, JObj _ => true
  | _, _ => false
  end.

Definition in_enum (vs : list string) (v : json) : bool :=
  match v with
  | JStr s => existsb (String.eqb s) vs
  | _ => false
  end.

Definition indexed {A : Type} (l : list A) : list (nat * A) :=
  combine (seq 0 (length l)) l.

Section Validator.

(** [format_ok f s]: does string [s] conform to format [f]?  The checks
    come from a format plug-in of the validator, not from this repository. *)
Variable format_ok : string -> string -> bool.

Definition type_errors (t : option jtype) (p : path) (v : json) : list verror :=
  match t with
  | Some t => if has_type t v then [] else [mkVerror p (KType t)]
  | None => []
  end.

Definition enum_errors (e : option (list string)) (p : path) (v : json) : list verror :=
  match e with
  | Some vs => if in_enum vs v then [] else [mkVerror p KEnum]
  | None => []
  end.

Definition format_errors (f : option string) (p : path) (v : json) : list verror :=
  match f, v with
  | Some f, JStr s => if format_ok f s then [] else [mkVerror p (KFormat f)]
  | _, _ => []
  end.

Definition required_errors (req : list string) (p : path)
           (fields : list (string * json)) : list verror :=
  flat_map (fun r => if has_key r fields then [] else [mkVerror p (KRequired r)]) req.

Definition additional_errors (allowed : bool) (known : list string) (p : path)
           (fields : list (string * json)) : list verror :=
  if allowed then []
  else flat_map (fun k => if existsb (String.eqb k) known then []
                          else [mkVerror p (KAdditionalProperties k)])
                (keys fields).

Definition passing (results : list (list verror)) : nat :=
  length (filter (fun errs => match errs with [] => true | _ => false end) results).

(** All violations of [v] against [s], each with the path of the value it
    concerns; the validator is set up as in test/validation.js (all errors
    collected, no type coercion).  The order of the list carries no meaning.
    The webhook route validates with the validator of the host, which may
    first convert a value of the wrong type (a numeric string to a number, a
    one-element array to its element) and stops at the first violation it
    finds; for that route the list gives the violations of the message as it
    was received. *)
Fixpoint validate_at (s : schema) (p : path) (v : json) {struct s} : list verror :=
  match s with
  | OneOf alternatives =>
      let results := map (fun a => validate_at a p v) alternatives in
      if Nat.eqb (passing results) 1 then []
      else concat results ++ [mkVerror p KOneOf]
  | Schema type_ enum_ format_ properties items required additionalProperties =>
      type_errors type_ p v ++ enum_errors enum_ p v ++ format_errors format_ p v ++
      match v with
      | JObj fields =>
          required_errors required p fields ++
          additional_errors additionalProperties (keys properties) p fields ++
          flat_map (fun ks =>
                      match lookup (fst ks) fields with
                      | Some x => validate_at (snd ks) (p ++ [Key (fst ks)]) x
                      | None => []
                      end) properties
      | JArr elems =>
          match items with
          | Some si =>
              flat_map (fun ix => validate_at si (p ++ [Idx (fst ix)]) (snd ix))
                       (indexed elems)
          | None => []
          end
      | _ => []
      end
  end.

Definition validate (s : schema) (v : json) : list verror := validate_at s [] v.

Definition valid (s : schema) (v : json) : bool :=
  match validate s v with [] => true | _ => false end.

End Validator.

(** ** The two schemas *)

(** schemas/message-schema.js: the action (button), the attachment and the
    message as [sendMessage] may be given it. *)
Definition actionSchema : schema :=
  object_of
    [ ("type", string_enum ["button"]);
      ("text", of_type TString);
      ("name", of_type TString);
      ("value", of_type TString);
      ("style", string_enum ["green"; "grey"; "red"; "orange"; "blue"; "teal"]) ]
    ["type"; "name"; "text"; "value"]
    false.

Definition attachmentSchema : schema :=
  object_of
    [ ("callback_id", of_type TString);
      ("text", of_type TString);
      ("actions", array_of actionSchema) ]
    ["text"]
    false.

(** The second alternative of [messageSchema]: the object form. *)
Definition messageObjectSchema : schema :=
  object_of
    [ ("text", of_type TString);
      ("file_url", string_format "uri");
      ("user_ids", array_of (of_type TInteger));
      ("attachments", array_of attachmentSchema) ]
    ["text"]
    false.

Definition messageSchema : schema :=
  OneOf [ of_type TString; messageObjectSchema ].

(** index.js, [webhookSchema.body]: the schema of the webhook route.  Where
    the source gives no [additionalProperties], additional ones are allowed. *)
Definition webhookSchema : schema :=
  object_of
    [ ("text", of_type TString);
      ("file_url", of_type TString);
      ("user_ids", array_of (of_type TNumber));
      ("attachments",
        array_of
          (object_of
             [ ("callback_id", of_type TString);
               ("text", of_type TString);
               ("actions",
                 array_of
                   (object_of
                      [ ("type", string_enum ["button"]);
                        ("text", of_type TString);
                        ("name", of_type TString);
                        ("value", of_type TString);
                        ("style", string_enum ["green"; "grey"; "red"; "orange"; "blue"; "teal"]) ]
                      ["type"; "name"; "text"; "value"]
                      true)) ]
             ["text"]
             true)) ]
    ["text"]
    true.

(** ** Reference instances of the platform services

    The plugin is verified for arbitrary [JSON.parse], [JSON.stringify] and
    [URLSearchParams] (section variables below).  The instances here make the
    model executable: they are used to run the statements on concrete
    requests.  Strings are byte strings (UTF-8). *)

Module Reference.

Definition dquote : ascii := Eval cbv in ascii_of_nat 34.
Definition backslash : ascii := Eval cbv in ascii_of_nat 92.

Definition is_digit (c : ascii) : bool :=
  let n := nat_of_ascii c in (48 <=? n)%nat && (n <=? 57)%nat.

Definition digit_val (c : ascii) : Z := Z.of_nat (nat_of_ascii c - 48).

Definition hex_val (c : ascii) : option nat :=
  let n := nat_of_ascii c in
  if (48 <=? n)%nat && (n <=? 57)%nat then Some (n - 48)%nat
  else if (65 <=? n)%nat && (n <=? 70)%nat then Some (n - 55)%nat
  else if (97 <=? n)%nat && (n <=? 102)%nat then Some (n - 87)%nat
  else None.

(** *** application/x-www-form-urlencoded *)

Fixpoint percent_decode (s : string) : string :=
  match s with
  | EmptyString => EmptyString
  | String c rest =>
      if Ascii.eqb c "+" then String " " (percent_decode rest)
      else if Ascii.eqb c "%" then
        match rest with
        | String a (String b rest') =>
            match hex_val a, hex_val b with
            | Some x, Some y => String (ascii_of_nat (16 * x + y)) (percent_decode rest')
            | _, _ => String c (percent_decode rest)
            end
        | _ => String c (percent_decode rest)
        end
      else String c (percent_decode rest)
  end.

Fixpoint split_on (sep : ascii) (s : string) : list string :=
  match s with
  | EmptyString => [EmptyString]
  | String c rest =>
      if Ascii.eqb c sep then EmptyString :: split_on sep rest
      else match split_on sep rest with
           | piece :: more => String c piece :: more
           | [] => [String c EmptyString]
           end
  end.

Fixpoint cut_at (sep : ascii) (s : string) : string * string :=
  match s with
  | EmptyString => (EmptyString, EmptyString)
  | String c rest =>
      if Ascii.eqb c sep then (EmptyString, rest)
      else let (a, b) := cut_at sep rest in (String c a, b)
  end.

(** [new URLSearchParams(body)], as the list of its entries: one leading
    [?] is dropped, the pairs are separated by [&], a pair is cut at its
    first [=], and names and values are decoded. *)
Definition URLSearchParams (body : string) : list (string * string) :=
  let body := match body with
              | String c rest => if Ascii.eqb c "?" then rest else body
              | EmptyString => body
              end in
  flat_map (fun piece =>
              match piece with
              | EmptyString => []
              | _ => let (n, v) := cut_at "=" piece in
                     [(percent_decode n, percent_decode v)]
              end)
           (split_on "&" body).

(** *** JSON text *)

Definition is_ws (c : ascii) : bool :=
  let n := nat_of_ascii c in
  (n =? 32)%nat || (n =? 9)%nat || (n =? 10)%nat || (n =? 13)%nat.

Fixpoint skip_ws (s : string) : string :=
  match s with
  | String c rest => if is_ws c then skip_ws rest else s
  | EmptyString => s
  end.

Fixpoint take_digits (s : string) : list Z * string :=
  match s with
  | String c rest =>
      if is_digit c then let (ds, r) := take_digits rest in (digit_val c :: ds, r)
      else ([], s)
  | EmptyString => ([], s)
  end.

Definition digits_value (ds : list Z) : Z :=
  fold_left (fun acc d => 10 * acc + d)%Z ds 0%Z.

Definition parse_fraction (s : string) : option (list Z * string) :=
  match s with
  | String "." rest =>
      match take_digits rest with
      | ([], _) => None
      | (fs, r) => Some (fs, r)
      end
  | _ => Some ([], s)
  end.

Definition parse_exponent (s : string) : option (Z * string) :=
  let digits (neg : bool) (r : string) :=
    match take_digits r with
    | ([], _) => None
    | (es, r') => Some (if neg then (- digits_value es)%Z else digits_value es, r')
    end in
  match s with
  | String c rest =>
      if Ascii.eqb c "e" || Ascii.eqb c "E" then
        match rest with
        | String "-" r => digits true r
        | String "+" r => digits false r
        | _ => digits false rest
        end
      else Some (0%Z, s)
  | EmptyString => Some (0%Z, s)
  end.

Definition scaled (mantissa scale : Z) : Q :=
  if (0 <=? scale)%Z then Qmake (mantissa * 10 ^ scale) 1
  else Qred (Qmake mantissa (Z.to_pos (10 ^ (- scale)))).

Definition parse_number (s : string) : option (Q * string) :=
  let (neg, s1) := match s with
                   | String "-" r => (true, r)
                   | _ => (false, s)
                   end in
  match take_digits s1 with
  | ([], _) => None
  | (0%Z :: _ :: _, _) => None
  | (ds, s2) =>
      match parse_fraction s2 with
      | None => None
      | Some (fs, s3) =>
          match parse_exponent s3 with
          | None => None
          | Some (e, s4) =>
              let mantissa := digits_value (ds ++ fs) in
              let q := scaled mantissa (e - Z.of_nat (length fs)) in
              Some (if neg then Qopp q else q, s4)
          end
      end
  end.

(** A UTF-16 code unit given by [\uXXXX], written in UTF-8 form. *)
Definition utf8 (n : nat) : string :=
  if (n <? 128)%nat then String (ascii_of_nat n) EmptyString
  else if (n <? 2048)%nat then
    String (ascii_of_nat (192 + n / 64)) (String (ascii_of_nat (128 + n mod 64)) EmptyString)
  else
    String (ascii_of_nat (224 + n / 4096))
      (String (ascii_of_nat (128 + (n / 64) mod 64))
         (String (ascii_of_nat (128 + n mod 64)) EmptyString)).

Definition simple_escape (c : ascii) : option ascii :=
  if Ascii.eqb c dquote then Some dquote
  else if Ascii.eqb c backslash then Some backslash
  else if Ascii.eqb c "/" then Some "/"%char
  else if Ascii.eqb c "b" then Some (ascii_of_nat 8)
  else if Ascii.eqb c "f" then Some (ascii_of_nat 12)
  else if Ascii.eqb c "n" then Some (ascii_of_nat 10)
  else if Ascii.eqb c "r" then Some (ascii_of_nat 13)
  else if Ascii.eqb c "t" then Some (ascii_of_nat 9)
  else None.

Definition hex4 (a b c d : ascii) : option nat :=
  match hex_val a, hex_val b, hex_val c, hex_val d with
  | Some w, Some x, Some y, Some z => Some (4096 * w + 256 * x + 16 * y + z)%nat
  | _, _, _, _ => None
  end.

(** The characters of a string literal after its opening quote, up to and
    including the closing quote. *)
Fixpoint parse_chars (s : string) : option (string * string) :=
  match s with
  | EmptyString => None
  | String c rest =>
      if Ascii.eqb c dquote then Some (EmptyString, rest)
      else if Ascii.eqb c backslash then
        match rest with
        | String e rest' =>
            match simple_escape e with
            | Some ch =>
                match parse_chars rest' with
                | Some (str, r) => Some (String ch str, r)
                | None => None
                end
            | None =>
                match rest' with
                | String h1 (String h2 (String h3 (String h4 rest''))) =>
                    if Ascii.eqb e "u" then
                      match hex4 h1 h2 h3 h4, parse_chars rest'' with
                      | Some n, Some (str, r) => Some ((utf8 n ++ str)%string, r)
                      | _, _ => None
                      end
                    else None
                | _ => None
                end
            end
        | EmptyString => None
        end
      else if (nat_of_ascii c <? 32)%nat then None
      else match parse_chars rest with
           | Some (str, r) => Some (String c str, r)
           | None => None
           end
  end.

Definition literal (word : string) (v : json) (s : string) : option (json * string) :=
  if prefix word s then Some (v, substring (String.length word) (String.length s - String.length word) s)
  else None.

Fixpoint parse_value (fuel : nat) (s : string) : option (json * string) :=
  match fuel with
  | O => None
  | S fuel =>
      match skip_ws s with
      | EmptyString => None
      | String c rest as s' =>
          if Ascii.eqb c dquote then
            match parse_chars rest with
            | Some (str, r) => Some (JStr str, r)
            | None => None
            end
          else if Ascii.eqb c "[" then
            match skip_ws rest with
            | String "]" r => Some (JArr [], r)
            | _ => match parse_elements fuel rest with
                   | Some (vs, r) => Some (JArr vs, r)
                   | None => None
                   end
            end
          else if Ascii.eqb c "{" then
            match skip_ws rest with
            | String "}" r => Some (JObj [], r)
            | _ => match parse_members fuel [] rest with
                   | Some (fs, r) => Some (JObj fs, r)
                   | None => None
                   end
            end
          else if Ascii.eqb c "n" then literal "null" JNull s'
          else if Ascii.eqb c "t" then literal "true" (JBool true) s'
          else if Ascii.eqb c "f" then literal "false" (JBool false) s'
          else match parse_number s' with
               | Some (q, r) => Some (JNum q, r)
               | None => None
               end
      end
  end
with parse_elements (fuel : nat) (s : string) : option (list json * string) :=
  match fuel with
  | O => None
  | S fuel =>
      match parse_value fuel s with
      | Some (v, rest) =>
          match skip_ws rest with
          | String "," r =>
              match parse_elements fuel r with
              | Some (vs, r') => Some (v :: vs, r')
              | None => None
              end
          | String "]" r => Some ([v], r)
          | _ => None
          end
      | None => None
      end
  end
with parse_members (fuel : nat) (acc : list (string * json)) (s : string)
  : option (list (string * json) * string) :=
  match fuel with
  | O => None
  | S fuel =>
      match skip_ws s with
      | String c rest =>
          if Ascii.eqb c dquote then
            match parse_chars rest with
            | Some (k, r) =>
                match skip_ws r with
                | String ":" r1 =>
                    match parse_value fuel r1 with
                    | Some (v, r2) =>
                        let acc' := obj_define acc k v in
                        match skip_ws r2 with
                        | String "," r3 => parse_members fuel acc' r3
                        | String "}" r3 => Some (acc', r3)
                        | _ => None
                        end
                    | None => None
                    end
                | _ => None
                end
            | None => None
            end
          else None
      | EmptyString => None
      end
  end.

Definition SyntaxError : error := Error "Unexpected token in JSON".

(** [JSON.parse(text)] *)
Definition JSON_parse (text : string) : result json :=
  match parse_value (2 * String.length text + 2) text with
  | Some (v, rest) =>
      match skip_ws rest with
      | EmptyString => Ok v
      | _ => Throw SyntaxError
      end
  | None => Throw SyntaxError
  end.

Definition hex_digit (n : nat) : ascii :=
  if (n <? 10)%nat then ascii_of_nat (48 + n) else ascii_of_nat (87 + n).

Fixpoint escape (s : string) : string :=
  match s with
  | EmptyString => EmptyString
  | String c rest =>
      let n := nat_of_ascii c in
      (if Ascii.eqb c dquote then String backslash (String dquote EmptyString)
       else if Ascii.eqb c backslash then String backslash (String backslash EmptyString)
       else if (n =? 8)%nat then String backslash "b"
       else if (n =? 12)%nat then String backslash "f"
       else if (n =? 10)%nat then String backslash "n"
       else if (n =? 13)%nat then String backslash "r"
       else if (n =? 9)%nat then String backslash "t"
       else if (n <? 32)%nat then
         String backslash
           ("u00" ++ String (hex_digit (n / 16)) (String (hex_digit (n mod 16)) EmptyString))
       else String c EmptyString)
      ++ escape rest
  end.

Definition quote (s : string) : string :=
  String dquote (escape s ++ String dquote EmptyString).

Fixpoint fraction_digits (fuel : nat) (r d : Z) : string :=
  match fuel with
  | O => EmptyString
  | S fuel =>
      if (r =? 0)%Z then EmptyString
      else String (ascii_of_nat (48 + Z.to_nat (10 * r / d)))
                  (fraction_digits fuel ((10 * r) mod d)%Z d)
  end.

(** A number in decimal: exact for integers and for terminating decimals, cut
    after 17 fraction digits otherwise. *)
Definition number_to_string (q : Q) : string :=
  let n := Qnum q in
  let d := Zpos (Qden q) in
  let a := Z.abs n in
  let whole := NilZero.string_of_uint (N.to_uint (Z.to_N (a / d))) in
  let frac := fraction_digits 17 (a mod d)%Z d in
  (if (n <? 0)%Z then "-" else EmptyString)
  ++ whole
  ++ match frac with EmptyString => EmptyString | _ => "." ++ frac end.

(** [JSON.stringify(value)] *)
Fixpoint JSON_stringify (v : json) : string :=
  match v with
  | JNull => "null"
  | JBool true => "true"
  | JBool false => "false"
  | JNum q => number_to_string q
  | JStr s => quote s
  | JArr elems => "[" ++ String.concat "," (map JSON_stringify elems) ++ "]"
  | JObj fields =>
      "{" ++ String.concat "," (map (fun kv => (quote (fst kv) ++ ":" ++ JSON_stringify (snd kv))%string) fields)
      ++ "}"
  end.

End Reference.

(** ** Effects

    What the plugin does besides computing values is recorded as a trace of
    events, in the order of occurrence; a computation ends by returning or by
    throwing. *)

Record request := mkRequest
  { method : string; headers : list (string * string); body : string }.

(** What [sendMessage] reads of the value [fetch] resolves to: two fields, and
    the completions of its two body readers, [json()] and [text()], as they
    turn out when [sendMessage] awaits them. *)
Record response := mkResponse
  { res_ok : bool; res_status : Z; res_json : result json; res_text : result string }.

Inductive event :=
| Fetch (url : string) (req : request)
| Handler (payload : json)
| LogError (err : error) (msg : string)
| ReplySend (code : Z) (payload : json).

Definition eff (A : Type) : Type := (list event * result A)%type.

Definition ret {A : Type} (a : A) : eff A := ([], Ok a).
Definition throw {A : Type} (e : error) : eff A := ([], Throw e).
Definition await {A : Type} (r : result A) : eff A := ([], r).
Definition perform {A : Type} (ev : event) (r : result A) : eff A := ([ev], r).

Definition bind {A B : Type} (m : eff A) (f : A -> eff B) : eff B :=
  match m with
  | (t, Ok a) => let (t', r) := f a in (t ++ t', r)
  | (t, Throw e) => (t, Throw e)
  end.

Definition try_catch {A : Type} (m : eff A) (handler : error -> eff A) : eff A :=
  match m with
  | (t, Throw e) => let (t', r) := handler e in (t ++ t', r)
  | (t, Ok a) => (t, Ok a)
  end.

Notation "x <- m ;; k" := (bind m (fun x => k))
  (at level 61, m at next level, right associativity).

Definition trace {A : Type} (m : eff A) : list event := fst m.
Definition completion {A : Type} (m : eff A) : result A := snd m.

(** A string or [null]/[undefined], as a condition. *)
Definition truthy (s : option string) : bool :=
  match s with
  | Some s => negb (String.eqb s EmptyString)
  | None => false
  end.

(** [a || b] *)
Definition js_or (a b : option string) : option string :=
  if truthy a then a else b.

Definition string_of_number (z : Z) : string := NilZero.string_of_int (Z.to_int z).

(** What the route handler hands back to the host: a value to send, or the
    reply object on which it has itself sent a response. *)
Inductive route_value :=
| Value (v : json)
| Replied (code : Z) (payload : json).

Inductive content_type := ApplicationJson | FormUrlencoded.

Inductive http_body :=
| JsonBody (v : json)
| TextBody (s : string)
| ErrorBody (e : error)
| Violations (errs : list verror).

Record http_response := mkHttp { http_status : Z; http_content : http_body }.

(** ** The plugin (index.js) *)

Section Plugin.

Variable JSON_parse : string -> result json.
Variable JSON_stringify : json -> string.
Variable URLSearchParams : string -> list (string * string).
Variable fetch : string -> request -> result response.
Variable format_ok : string -> string -> bool.

(** The plugin's options. *)
Variable onMessage : json -> result jsvalue.
Variable webhookUrl : option string.

(** The parser registered for [application/x-www-form-urlencoded]; the
    completion is what it passes to [done].  [params] is the sequence of
    entries of the [URLSearchParams] object: [params.has(k)] is [has_key k
    params], and [params.get(k)], the value of the first entry named [k], is
    [lookup k params]. *)
Definition formParser (body : string) : result json :=
  let params := URLSearchParams body in
  if has_key "payload" params then
    match JSON_parse (match lookup "payload" params with
                      | Some s => s
                      | None => "null"
                      end) with
    | Ok parsedPayload => Ok parsedPayload
    | Throw err =>
        Throw (mkError ("Invalid JSON in payload: " ++ message err) (Some 400%Z))
    end
  else
    Ok (JObj (fold_fields params [])).

(** "Format the message if it's a string". *)
Definition format_message (message : json) : json :=
  match message with
  | JStr s => JObj [("text", JStr s)]
  | _ => message
  end.

(** The options [sendMessage] passes to [fetch]. *)
Definition post_request (payload : json) : request :=
  mkRequest "POST" [("Content-Type", "application/json")] (JSON_stringify payload).

Definition call_fetch (url : string) (req : request) : eff response :=
  perform (Fetch url req) (fetch url req).

(** The [sendMessage] method of the [synologyChat] decorator. *)
Definition sendMessage (message : json) (url : option string) : eff json :=
  let targetUrl := js_or url webhookUrl in
  if negb (truthy targetUrl) then
    throw (Error "No webhook URL provided. Set it in the plugin options or pass it to sendMessage()")
  else
    let payload := format_message message in
    response <- call_fetch (match targetUrl with Some u => u | None => EmptyString end)
                           (post_request payload) ;;
    if negb (res_ok response) then
      errorText <- await (res_text response) ;;
      throw (Error ("Failed to send message to Synology Chat: "
                    ++ string_of_number (res_status response) ++ " " ++ errorText))
    else
      try_catch
        (await (res_json response))
        (fun err =>
           raw <- await (res_text response) ;;
           ret (JObj [("success", JBool true); ("raw", JStr raw)])).

(** The handler of the webhook route. *)
Definition post_handler (body : json) : eff route_value :=
  try_catch
    (result <- perform (Handler body) (onMessage body) ;;
     match result with
     | None | Some JNull => ret (Value (JObj [("success", JBool true)]))
     | Some v => ret (Value v)
     end)
    (fun err =>
       _ <- perform (LogError err "Error processing Synology Chat webhook") (Ok tt) ;;
       perform (ReplySend 500 (JObj [("success", JBool false); ("error", JStr (message err))]))
               (Ok (Replied 500 (JObj [("success", JBool false);
                                       ("error", JStr (message err))])))).

(** *** The host around the plugin *)

(** Modelled from the spec: the host's own parser of JSON bodies, which is
    not part of this repository (4.3: the body is parsed as JSON directly, a
    parse failure is a client error). *)
Definition jsonParser (body : string) : result json :=
  match JSON_parse body with
  | Ok v => Ok v
  | Throw err => Throw (mkError (message err) (Some 400%Z))
  end.

(** The Body Normalizer: one canonical value from either encoding. *)
Definition normalize (ct : content_type) (body : string) : result json :=
  match ct with
  | ApplicationJson => jsonParser body
  | FormUrlencoded => formParser body
  end.

(** Modelled from the spec: how the host answers once the route handler is
    done, which is not part of this repository (4.4 and 6: a string is sent
    verbatim as plain text, any other value as JSON, both with status 200; a
    response the handler has sent itself stands). *)
Definition respond (r : eff route_value) : http_response :=
  match completion r with
  | Ok (Value (JStr s)) => mkHttp 200 (TextBody s)
  | Ok (Value v) => mkHttp 200 (JsonBody v)
  | Ok (Replied code payload) => mkHttp code (JsonBody payload)
  | Throw e => mkHttp (match statusCode e with Some c => c | None => 500%Z end) (ErrorBody e)
  end.

(** Modelled from the spec: the host's request pipeline, which is not part
    of this repository (2 and 7: normalise, validate against the route's
    schema, and only then call the route handler; malformed bodies and schema
    violations are answered as client errors). *)
Definition handle_request (ct : content_type) (body : string)
  : list event * http_response :=
  match normalize ct body with
  | Throw e => ([], mkHttp (match statusCode e with Some c => c | None => 500%Z end)
                           (ErrorBody e))
  | Ok message =>
      match validate format_ok webhookSchema message with
      | [] => (trace (post_handler message), respond (post_handler message))
      | errs => ([], mkHttp 400 (Violations errs))
      end
  end.

End Plugin.

(** ** The parts of the two schemas, by name *)

(** The items of [attachments] and of [actions] in [webhookSchema]. *)
Definition webhookActionSchema : schema :=
  object_of
    [ ("type", string_enum ["button"]);
      ("text", of_type TString);
      ("name", of_type TString);
      ("value", of_type TString);
      ("style", string_enum ["green"; "grey"; "red"; "orange"; "blue"; "teal"]) ]
    ["type"; "name"; "text"; "value"]
    true.

Definition webhookAttachmentSchema : schema :=
  object_of
    [ ("callback_id", of_type TString);
      ("text", of_type TString);
      ("actions", array_of webhookActionSchema) ]
    ["text"]
    true.

(** The values of [style] a button may have. *)
Definition button_styles : list string :=
  ["green"; "grey"; "red"; "orange"; "blue"; "teal"].

(** [loose] accepts every value that [strict] accepts, decided on the two
    schemas: a weaker or absent [type], [enum] and [format], fewer [required]
    names, the same or more listed properties, each with a schema that is in
    turn weaker, and additional properties allowed unless [strict] forbids
    them too. *)
Definition type_weaker (strict loose : option jtype) : bool :=
  match loose, strict with
  | None, _ => true
  | Some TNumber, Some TInteger => true
  | Some TString, Some TString => true
  | Some TNumber, Some TNumber => true
  | Some TInteger, Some TInteger => true
  | Some TArray, Some TArray => true
  | Some TObject, Some TObject => true
  | _, _ => false
  end.

Definition enum_weaker (strict loose : option (list string)) : bool :=
  match loose, strict with
  | None, _ => true
  | Some l2, Some l1 => forallb (fun s => existsb (String.eqb s) l2) l1
  | Some _, None => false
  end.

Definition format_weaker (strict loose : option string) : bool :=
  match loose, strict with
  | None, _ => true
  | Some f2, Some f1 => String.eqb f1 f2
  | Some _, None => false
  end.

Fixpoint subsumes (strict loose : schema) {struct loose} : bool :=
  match loose, strict with
  | Schema t2 e2 f2 props2 items2 req2 addl2, Schema t1 e1 f1 props1 items1 req1 addl1 =>
      type_weaker t1 t2 && enum_weaker e1 e2 && format_weaker f1 f2
      && forallb (fun r => existsb (String.eqb r) req1) req2
      && (addl2 || (negb addl1
                    && forallb (fun k => existsb (String.eqb k) (keys props2)) (keys props1)))
      && forallb (fun ks2 =>
                    existsb (fun ks1 => String.eqb (fst ks1) (fst ks2)
                                        && subsumes (snd ks1) (snd ks2))
                            props1)
                 props2
      && match items2 with
         | None => true
         | Some b => match items1 with
                     | Some a => subsumes a b
                     | None => false
                     end
         end
  | _, _ => false
  end.

(** The value at a path inside a value, and the schema that applies there. *)
Fixpoint resolve (v : json) (q : path) : option json :=
  match q with
  | [] => Some v
  | Key k :: rest =>
      match v with
      | JObj fields =>
          match lookup k fields with
          | Some x => resolve x rest
          | None => None
          end
      | _ => None
      end
  | Idx i :: rest =>
      match v with
      | JArr elems =>
          match nth_error elems i with
          | Some x => resolve x rest
          | None => None
          end
      | _ => None
      end
  end.

Fixpoint schema_at (s : schema) (q : path) : option schema :=
  match q with
  | [] => Some s
  | Key k :: rest =>
      match s with
      | Schema _ _ _ properties _ _ _ =>
          match lookup k properties with
          | Some sk => schema_at sk rest
          | None => None
          end
      | OneOf _ => None
      end
  | Idx _ :: rest =>
      match s with
      | Schema _ _ _ _ (Some si) _ _ => schema_at si rest
      | _ => None
      end
  end.

Definition jtype_eqb (a b : jtype) : bool :=
  match a, b with
  | TString, TString | TNumber, TNumber | TInteger, TInteger
  | TArray, TArray | TObject, TObject => true
  | _, _ => false
  end.

(** Whether a schema has, at some level, a keyword that can produce a
    violation of the given kind. *)
Fixpoint may_report (s : schema) (k : violation) {struct s} : bool :=
  match s with
  | Schema type_ enum_ format_ properties items required additionalProperties =>
      match k with
      | KType a => match type_ with Some b => jtype_eqb a b | None => false end
      | KEnum => match enum_ with Some _ => true | None => false end
      | KFormat g => match format_ with Some f => String.eqb g f | None => false end
      | KRequired r => existsb (String.eqb r) required
      | KAdditionalProperties _ => negb additionalProperties
      | KOneOf => false
      end
      || existsb (fun ks => may_report (snd ks) k) properties
      || match items with Some si => may_report si k | None => false end
  | OneOf alternatives =>
      match k with KOneOf => true | _ => false end
      || existsb (fun a => may_report a k) alternatives
  end.

(** ** Registration (index.js, [synologyChat]) *)

(** A value given for the option [onMessage]: a function, or anything else. *)
Inductive given_handler :=
| GivenFunction (f : json -> result jsvalue)
| GivenOther (v : json).

(** The options object; [None] is a property left [undefined]. *)
Record plugin_options := mkOptions
  { opt_path : option string;
    opt_onMessage : option given_handler;
    opt_required : bool;
    opt_webhookUrl : option string }.

(** The constant [onMessage] after destructuring with its default.  The
    module does not export [defaultHandler], so a given function is never
    identical to it. *)
Inductive handler_value :=
| DefaultHandler
| UserFunction (f : json -> result jsvalue)
| NotAFunction (v : json).

Definition is_function (h : handler_value) : bool :=
  match h with NotAFunction _ => false | _ => true end.

Definition is_defaultHandler (h : handler_value) : bool :=
  match h with DefaultHandler => true | _ => false end.

(** "Default handler when no onMessage callback is provided". *)
Definition defaultHandler (payload : json) : result jsvalue :=
  Ok (Some (JObj [("success", JBool true)])).

(** What a registration that succeeds has set up: the path of the webhook
    route, the handler the route calls, and the default URL of the
    [sendMessage] decorator. *)
Record registration := mkRegistration
  { route_path : string;
    route_onMessage : json -> result jsvalue;
    default_webhookUrl : option string }.

(** The plugin function, as far as its options decide: the two checks, then
    what the calls [addContentTypeParser], [decorate] and [post] set up.  The
    host is taken to accept the three calls; a refusal by the host (the
    plugin registered a second time on the same instance, say) is not
    modelled, so [Ok] here means that the options pass the checks. *)
Definition synologyChat (options : plugin_options) : result registration :=
  let path := match opt_path options with Some p => p | None => "/synology-chat" end in
  let onMessage := match opt_onMessage options with
                   | Some (GivenFunction f) => UserFunction f
                   | Some (GivenOther v) => NotAFunction v
                   | None => DefaultHandler
                   end in
  let required := opt_required options in
  let webhookUrl := opt_webhookUrl options in
  if required && is_function onMessage && is_defaultHandler onMessage then
    Throw (Error "onMessage callback is required when required option is true")
  else if negb (is_function onMessage) then
    Throw (Error "onMessage must be a function")
  else
    Ok (mkRegistration path
                       (match onMessage with
                        | UserFunction f => f
                        | _ => defaultHandler
                        end)
                       webhookUrl).

(** ** A caller of [sendMessage]: the route [GET /send-simple] of the
    example that sends messages

    Console output is not part of the model. *)

(** [request.query.user], as the route's schema admits it. *)
Inductive query_user :=
| OneUser (id : string)
| ManyUsers (ids : list string).

Record querystring := mkQuery { query_user_ : option query_user; query_text : option string }.

Definition num (z : Z) : json := JNum (inject_Z z).

Section SendSimple.

(** [parseInt(id, 10)]; [None] is [NaN], [Some z] an integer result.  The
    result [Infinity], which [parseInt] gives for a digit string beyond the
    range of a double, is left out. *)
Variable parseInt : string -> option Z.
Variable JSON_stringify : json -> string.
Variable fetch : string -> request -> result response.

(** [process.env.SYNOLOGY_WEBHOOK_URL]; [None] when it is not set. *)
Variable SYNOLOGY_WEBHOOK_URL : option string.

(** The URL the example registers the plugin with. *)
Definition WEBHOOK_URL : string :=
  match js_or SYNOLOGY_WEBHOOK_URL (Some "YOUR_WEBHOOK_URL") with
  | Some u => u
  | None => EmptyString
  end.

(** The block that computes [userIds]; [None] is [undefined]. *)
Definition parseUserIds (query : querystring) : option (list Z) :=
  match query_user_ query with
  | Some user =>
      if match user with
         | OneUser id => negb (String.eqb id EmptyString)
         | ManyUsers _ => true
         end
      then
        let userIds := match user with
                       | ManyUsers ids => map parseInt ids
                       | OneUser id => [parseInt id]
                       end in
        let userIds := flat_map (fun id => match id with Some z => [z] | None => [] end)
                                userIds in
        if Nat.eqb (length userIds) 0 then None else Some userIds
      else None
  | None => None
  end.

(** [messagePayload], once [user_ids] has been added or not. *)
Definition messagePayload (query : querystring) : json :=
  JObj (("text", JStr (match js_or (query_text query) (Some "Hello from Fastify!") with
                        | Some t => t
                        | None => EmptyString
                        end))
        :: match parseUserIds query with
           | Some userIds =>
               if (0 <? length userIds)%nat then [("user_ids", JArr (map num userIds))] else []
           | None => []
           end).

(** The handler of [GET /send-simple]. *)
Definition send_simple (query : querystring) : eff route_value :=
  try_catch
    (result <- sendMessage JSON_stringify fetch (Some WEBHOOK_URL) (messagePayload query)
                           None ;;
     ret (Value (JObj [ ("success", JBool true);
                        ("message", JStr "Message sent successfully");
                        ("to", JStr (match parseUserIds query with
                                     | Some userIds =>
                                         "users: " ++ JSON_stringify (JArr (map num userIds))
                                     | None => "channel"
                                     end));
                        ("sent", messagePayload query);
                        ("result", result) ])))
    (fun err =>
       _ <- perform (LogError err EmptyString) (Ok tt) ;;
       perform (ReplySend 500 (JObj [("success", JBool false); ("error", JStr (message err))]))
               (Ok (Replied 500 (JObj [("success", JBool false);
                                       ("error", JStr (message err))])))).

End SendSimple.

(** The body of the 500 reply of a route whose work has thrown [err]. *)
Definition server_error (err : error) : json :=
  JObj [("success", JBool false); ("error", JStr (message err))].

(** ** Concrete messages and test doubles

    The inputs are those of the repository's tests (test/validation.js,
    test/button-callbacks.js, test.js) and of the scenarios of the
    specification. *)

(** test/validation.js, "rejects attachments with actions but missing
    callback_id". *)
Definition attachment_without_callback_id : json :=
  JObj [ ("text", JStr "Hello with attachment");
         ("attachments",
           JArr [ JObj [ ("text", JStr "Attachment text");
                         ("actions",
                           JArr [ JObj [ ("type", JStr "button");
                                         ("name", JStr "action_1");
                                         ("text", JStr "Click me");
                                         ("value", JStr "btn_1") ] ]) ] ]) ].



(** The JSON text of [{text: "Hello"}]. *)
Definition hello_text : string :=
  Eval cbv in Reference.JSON_stringify (JObj [("text", JStr "Hello")]).

(** A message with an unlisted property at each level, an attachment
    without [text], and an action without [value] whose [type] and [style]
    are not listed. *)
Definition purple_link : list (string * json) :=
  [ ("text", JStr "hi");
    ("colour", JStr "x");
    ("attachments",
      JArr [ JObj [ ("title", JStr "t");
                    ("actions",
                      JArr [ JObj [ ("type", JStr "link");
                                    ("name", JStr "a");
                                    ("text", JStr "b");
                                    ("style", JStr "purple");
                                    ("url", JStr "u") ] ]) ] ]) ].

(** A remote end that refuses with status 400, as the tests' [fetch]. *)
Definition bad_request_fetch (url : string) (req : request) : result response :=
  Ok (mkResponse false 400 (Throw Reference.SyntaxError) (Ok "Bad Request")).

(** A network that fails. *)
Definition failing_fetch (url : string) (req : request) : result response :=
  Throw (Error "fetch failed").

(** A format plug-in that accepts every string. *)
Definition any_format (f s : string) : bool := true.

(** A remote end that acknowledges with JSON, as the tests' [fetch]. *)
Definition ack_fetch (url : string) (req : request) : result response :=
  Ok (mkResponse true 200 (Ok (JObj [("success", JBool true)])) (Ok EmptyString)).

(** A response of the platform's [fetch], carrying the text [body].  Its
    body can be read once: [json()] reads it and parses the text, and a
    [text()] called after that rejects with the error [used] (a
    [TypeError]).  [sendMessage] calls [text()] first when [ok] is false, and
    only after [json()] when [ok] is true, so the completion of the [text()]
    it makes is decided by [ok]. *)
Definition fetch_response (JSON_parse : string -> result json) (used : error)
           (ok : bool) (status : Z) (body : string) : response :=
  mkResponse ok status (JSON_parse body) (if ok then Throw used else Ok body).

(** The [TypeError] of a second read of a body. *)
Definition body_already_read : error :=
  Error "Body is unusable: Body has already been read".

(** A remote end that answers 200 with the plain text [OK]. *)
Definition text_body_fetch (url : string) (req : request) : result response :=
  Ok (fetch_response Reference.JSON_parse body_already_read true 200 "OK").

(** * Properties *)

(** ** Objects as property lists *)

Lemma lookup_app (A : Type) (k : string) (l1 l2 : list (string * A)) :
  lookup k (l1 ++ l2) =
  match lookup k l1 with Some v => Some v | None => lookup k l2 end.
Proof.
  induction l1 as [| [k' v'] l1 IH]; simpl; [reflexivity |].
  destruct (String.eqb k k'); [reflexivity | exact IH].
Qed.

Lemma lookup_In_keys (A : Type) (k : string) (l : list (string * A)) :
  In k (keys l) <-> exists v, lookup k l = Some v.
Proof.
  induction l as [| [k' v'] l IH]; simpl.
  - split; [tauto | intros [v H]; discriminate].
  - destruct (String.eqb_spec k k') as [-> | Hne].
    + split; [eauto | auto].
    + rewrite <- IH. split; [intros [H | H]; [congruence | exact H] | auto].
Qed.

Lemma lookup_obj_define_same (fields : list (string * json)) (k : string) (v : json) :
  lookup k (obj_define fields k v) = Some v.
Proof.
  induction fields as [| [k' v'] fields IH]; simpl.
  - now rewrite String.eqb_refl.
  - destruct (String.eqb_spec k k') as [-> | Hne]; simpl.
    + now rewrite String.eqb_refl.
    + destruct (String.eqb_spec k k'); [contradiction | exact IH].
Qed.

Lemma lookup_obj_define_other (fields : list (string * json)) (k k' : string) (v : json) :
  k <> k' -> lookup k (obj_define fields k' v) = lookup k fields.
Proof.
  intros Hne. induction fields as [| [k0 v0] fields IH]; simpl.
  - destruct (String.eqb_spec k k'); [contradiction | reflexivity].
  - destruct (String.eqb_spec k' k0) as [-> | Hne0]; simpl.
    + destruct (String.eqb_spec k k0); [contradiction | reflexivity].
    + destruct (String.eqb k k0); [reflexivity | exact IH].
Qed.

Lemma In_keys_obj_define (fields : list (string * json)) (k k' : string) (v : json) :
  In k (keys (obj_define fields k' v)) -> k = k' \/ In k (keys fields).
Proof.
  induction fields as [| [k0 v0] fields IH]; simpl.
  - intros [H | []]; auto.
  - destruct (String.eqb k' k0); simpl; [tauto |].
    intros [H | H]; [tauto | destruct (IH H); tauto].
Qed.

Lemma NoDup_obj_define (fields : list (string * json)) (k : string) (v : json) :
  NoDup (keys fields) -> NoDup (keys (obj_define fields k v)).
Proof.
  induction fields as [| [k0 v0] fields IH]; simpl; intros Hnd.
  - constructor; [intros [] | constructor].
  - inversion Hnd as [| ? ? Hnotin Hnd']; subst.
    destruct (String.eqb_spec k k0) as [-> | Hne]; simpl.
    + constructor; assumption.
    + constructor; [| apply IH; assumption].
      intros Hin. apply In_keys_obj_define in Hin. destruct Hin; congruence.
Qed.

Lemma count_key_absent (A : Type) (k : string) (l : list (string * A)) :
  ~ In k (keys l) -> count_key k l = 0.
Proof.
  unfold count_key. induction l as [| [k' v'] l IH]; simpl; intros Hnotin; [reflexivity |].
  destruct (String.eqb_spec k k') as [-> | Hne]; [tauto | apply IH; tauto].
Qed.

Lemma count_key_NoDup (A : Type) (k : string) (l : list (string * A)) :
  NoDup (keys l) -> In k (keys l) -> count_key k l = 1.
Proof.
  induction l as [| [k' v'] l IH]; simpl; intros Hnd Hin; [contradiction |].
  inversion Hnd as [| ? ? Hnotin Hnd']; subst. unfold count_key; simpl.
  destruct (String.eqb_spec k k') as [-> | Hne]; simpl.
  - f_equal. now apply count_key_absent.
  - apply IH; [assumption | destruct Hin; congruence].
Qed.

(** ** The fold over flat form fields *)

Lemma NoDup_fold_fields (params : list (string * string)) (result : list (string * json)) :
  NoDup (keys result) -> NoDup (keys (fold_fields params result)).
Proof.
  unfold fold_fields. revert result.
  induction params as [| [k v] params IH]; simpl; intros result Hnd; [exact Hnd |].
  apply IH. unfold obj_assign.
  destruct (String.eqb k "__proto__"); [exact Hnd | now apply NoDup_obj_define].
Qed.

Lemma lookup_fold_fields (k : string) (params : list (string * string))
      (result : list (string * json)) :
  k <> "__proto__" ->
  lookup k (fold_fields params result) =
  match last_value k params with
  | Some v => Some (JStr v)
  | None => lookup k result
  end.
Proof.
  intros Hk. unfold fold_fields, last_value. revert result.
  induction params as [| [k' v'] params IH]; simpl; intros result; [reflexivity |].
  rewrite IH, lookup_app. destruct (lookup k (rev params)); [reflexivity |].
  simpl. unfold obj_assign.
  destruct (String.eqb_spec k k') as [<- | Hne].
  - destruct (String.eqb_spec k "__proto__"); [contradiction |].
    apply lookup_obj_define_same.
  - destruct (String.eqb k' "__proto__"); [reflexivity |].
    now apply lookup_obj_define_other.
Qed.

Lemma last_value_present (k : string) (params : list (string * string)) :
  In k (keys params) -> exists v, last_value k params = Some v.
Proof.
  intros Hin. unfold last_value. apply lookup_In_keys.
  unfold keys in *. rewrite map_rev. now apply -> in_rev.
Qed.

(** ** Indexing the elements of an array *)

Lemma In_indexed_from (A : Type) (l : list A) (start i : nat) (x : A) :
  nth_error l i = Some x -> In (start + i, x) (combine (seq start (length l)) l).
Proof.
  revert start i. induction l as [| y l IH]; intros start i H.
  - destruct i; discriminate.
  - destruct i as [| i]; simpl in *.
    + left. injection H as ->. now rewrite Nat.add_0_r.
    + right. rewrite <- Nat.add_succ_comm. now apply IH.
Qed.

Lemma In_indexed (A : Type) (l : list A) (i : nat) (x : A) :
  nth_error l i = Some x -> In (i, x) (indexed l).
Proof. intros H. apply (In_indexed_from A l 0 i x H). Qed.

(** ** The validator, the sender, the normaliser and the dispatcher

    Stated for arbitrary platform services and plugin options. *)

Section Properties.

Variable JSON_parse : string -> result json.
Variable JSON_stringify : json -> string.
Variable URLSearchParams : string -> list (string * string).
Variable fetch : string -> request -> result response.
Variable format_ok : string -> string -> bool.
Variable onMessage : json -> result jsvalue.
Variable webhookUrl : option string.

Set Default Proof Using "Type".

(** A violation found in the value of a listed property is a violation of
    the object. *)
Lemma validate_at_property t e f props items req additional
      (p : path) (fields : list (string * json)) (k : string) (sk : schema) (x : json) :
  In (k, sk) props ->
  lookup k fields = Some x ->
  incl (validate_at format_ok sk (p ++ [Key k]) x)
       (validate_at format_ok (Schema t e f props items req additional) p (JObj fields)).
Proof.
  intros Hin Hlk err Herr. simpl.
  do 5 (apply in_or_app; right).
  apply in_flat_map. exists (k, sk). split; [exact Hin |].
  simpl. now rewrite Hlk.
Qed.

(** A violation found in an element is a violation of the array. *)
Lemma validate_at_item t e f props si req additional
      (p : path) (elems : list json) (i : nat) (x : json) :
  nth_error elems i = Some x ->
  incl (validate_at format_ok si (p ++ [Idx i]) x)
       (validate_at format_ok (Schema t e f props (Some si) req additional) p (JArr elems)).
Proof.
  intros Hnth err Herr. simpl.
  do 3 (apply in_or_app; right).
  apply in_flat_map. exists (i, x). split; [now apply In_indexed | exact Herr].
Qed.


(** On an object, [messageSchema] reports what its object alternative
    reports, between the failure of the string alternative and that of
    [oneOf] itself. *)
Lemma validate_messageSchema_object (fields : list (string * json)) :
  validate format_ok messageSchema (JObj fields) =
  match validate_at format_ok messageObjectSchema [] (JObj fields) with
  | [] => []
  | errs => mkVerror [] (KType TString) :: errs ++ [mkVerror [] KOneOf]
  end.
Proof.
  unfold validate, messageSchema.
  change (validate_at format_ok (OneOf [of_type TString; messageObjectSchema]) [] (JObj fields))
    with (let results := [ validate_at format_ok (of_type TString) [] (JObj fields);
                           validate_at format_ok messageObjectSchema [] (JObj fields) ] in
          if Nat.eqb (passing results) 1 then []
          else List.concat results ++ [mkVerror [] KOneOf]).
  cbv zeta.
  destruct (validate_at format_ok messageObjectSchema [] (JObj fields)) as [| err errs];
    [reflexivity |].
  unfold passing. simpl. now rewrite app_nil_r.
Qed.

(** ** Outbound sending *)

Lemma trace_sendMessage (msg : json) (url : option string) :
  trace (sendMessage JSON_stringify fetch webhookUrl msg url) =
  match js_or url webhookUrl with
  | Some target =>
      if String.eqb target EmptyString then []
      else [Fetch target (post_request JSON_stringify (format_message msg))]
  | None => []
  end.
Proof.
  unfold sendMessage.
  destruct (js_or url webhookUrl) as [target |]; simpl; [| reflexivity].
  destruct (String.eqb target EmptyString); simpl; [reflexivity |].
  unfold call_fetch, perform, bind.
  destruct (fetch target (post_request JSON_stringify (format_message msg))) as [r | e]; [| reflexivity].
  destruct (res_ok r); simpl.
  - destruct (res_json r); simpl; [reflexivity |].
    now destruct (res_text r).
  - now destruct (res_text r).
Qed.

Lemma truthy_Some (u : string) : u <> EmptyString -> truthy (Some u) = true.
Proof.
  intros H. simpl. now destruct (String.eqb_spec u EmptyString).
Qed.

(** ** The claims about the plugin *)

(** C2. A JSON body whose text parses to [v], and a form-encoded body whose
    single field [payload] holds that same text, are normalised to the same
    canonical message, namely [v]. *)
Theorem normalize_json_and_payload_agree (v : json) (text formBody : string) :
  JSON_parse text = Ok v ->
  URLSearchParams formBody = [("payload", text)] ->
  normalize JSON_parse URLSearchParams ApplicationJson text = normalize JSON_parse URLSearchParams FormUrlencoded formBody
  /\ normalize JSON_parse URLSearchParams FormUrlencoded formBody = Ok v.
Proof.
  intros Hparse Hform.
  assert (Hf : normalize JSON_parse URLSearchParams FormUrlencoded formBody = Ok v).
  { unfold normalize, formParser. rewrite Hform. simpl. now rewrite Hparse. }
  split; [| exact Hf].
  rewrite Hf. unfold normalize, jsonParser. now rewrite Hparse.
Qed.

(** C3 does not hold of the code.  When the platform's [fetch] answers
    with a successful response whose body is not JSON, [json()] has read the
    body by the time it fails, and the [text()] of the fallback rejects:
    [sendMessage] throws that [TypeError] and does not return
    [{success: true, raw: <the response text>}]. *)
Theorem raw_fallback_reads_used_body (msg : json) (url : option string) (target : string)
        (status : Z) (body : string) (err used : error) :
  js_or url webhookUrl = Some target ->
  target <> EmptyString ->
  fetch target (post_request JSON_stringify (format_message msg))
  = Ok (fetch_response JSON_parse used true status body) ->
  JSON_parse body = Throw err ->
  completion (sendMessage JSON_stringify fetch webhookUrl msg url) = Throw used.
Proof.
  intros Htarget Hne Hfetch Hparse.
  unfold sendMessage. rewrite Htarget, (truthy_Some target Hne). simpl.
  unfold call_fetch, perform, bind. rewrite Hfetch. simpl.
  now rewrite Hparse.
Qed.

(** C4. The destination of [sendMessage] is the per-call override when one
    is given (a non-empty string), otherwise the configured [webhookUrl];
    when there is neither, the call fails with the error "No webhook URL
    provided ..." and nothing is fetched. *)
Theorem sendMessage_destination (msg : json) (url : option string) :
  (forall u, url = Some u -> u <> EmptyString ->
     trace (sendMessage JSON_stringify fetch webhookUrl msg url) = [Fetch u (post_request JSON_stringify (format_message msg))])
  /\ (forall w, truthy url = false -> webhookUrl = Some w -> w <> EmptyString ->
        trace (sendMessage JSON_stringify fetch webhookUrl msg url) = [Fetch w (post_request JSON_stringify (format_message msg))])
  /\ (truthy url = false -> truthy webhookUrl = false ->
        sendMessage JSON_stringify fetch webhookUrl msg url
        = ([], Throw (Error "No webhook URL provided. Set it in the plugin options or pass it to sendMessage()"))).
Proof.
  split; [| split].
  - intros u -> Hne. rewrite trace_sendMessage.
    unfold js_or. rewrite (truthy_Some u Hne).
    destruct (String.eqb_spec u EmptyString); [contradiction | reflexivity].
  - intros w Hurl Hdefault Hne. rewrite trace_sendMessage.
    unfold js_or. rewrite Hurl, Hdefault.
    destruct (String.eqb_spec w EmptyString); [contradiction | reflexivity].
  - intros Hurl Hdefault. unfold sendMessage, js_or.
    rewrite Hurl, Hdefault. reflexivity.
Qed.

(** C5. When the handler raises an error on a validated inbound message, the
    route handler catches it and answers with status 500 and the JSON body
    [{success: false, error: <the error's message>}]; the route handler
    itself never ends by throwing, whatever the handler does. *)
Theorem handler_error_is_answered (ct : content_type) (raw : string) (msg : json)
        (err : error) :
  normalize JSON_parse URLSearchParams ct raw = Ok msg ->
  validate format_ok webhookSchema msg = [] ->
  onMessage msg = Throw err ->
  completion (post_handler onMessage msg)
  = Ok (Replied 500 (JObj [("success", JBool false); ("error", JStr (message err))]))
  /\ snd (handle_request JSON_parse URLSearchParams format_ok onMessage ct raw)
     = mkHttp 500 (JsonBody (JObj [("success", JBool false); ("error", JStr (message err))]))
  /\ (forall m, exists v, completion (post_handler onMessage m) = Ok v).
Proof.
  intros Hnorm Hvalid Hthrow.
  assert (Hc : completion (post_handler onMessage msg)
               = Ok (Replied 500 (JObj [("success", JBool false);
                                        ("error", JStr (message err))]))).
  { unfold post_handler, perform, bind, try_catch. now rewrite Hthrow. }
  split; [exact Hc | split].
  - unfold handle_request. rewrite Hnorm, Hvalid. simpl.
    unfold respond. now rewrite Hc.
  - intros m. unfold post_handler, perform, bind, try_catch.
    destruct (onMessage m) as [[[] |] | e]; simpl; eauto.
Qed.

(** C6. For a validated inbound message the handler is called with exactly
    that message, and its result is mapped as follows: an object is the JSON
    response body, a string is the plain-text response body verbatim, and
    [undefined] or [null] gives the default [{success: true}]; the status is
    200 in each case. *)
Theorem handler_result_mapping (ct : content_type) (raw : string) (msg : json) :
  normalize JSON_parse URLSearchParams ct raw = Ok msg ->
  validate format_ok webhookSchema msg = [] ->
  (forall fields, onMessage msg = Ok (Some (JObj fields)) ->
     post_handler onMessage msg = ([Handler msg], Ok (Value (JObj fields)))
     /\ handle_request JSON_parse URLSearchParams format_ok onMessage ct raw
        = ([Handler msg], mkHttp 200 (JsonBody (JObj fields))))
  /\ (forall s, onMessage msg = Ok (Some (JStr s)) ->
        post_handler onMessage msg = ([Handler msg], Ok (Value (JStr s)))
        /\ handle_request JSON_parse URLSearchParams format_ok onMessage ct raw
           = ([Handler msg], mkHttp 200 (TextBody s)))
  /\ (onMessage msg = Ok None \/ onMessage msg = Ok (Some JNull) ->
        post_handler onMessage msg
        = ([Handler msg], Ok (Value (JObj [("success", JBool true)])))
        /\ handle_request JSON_parse URLSearchParams format_ok onMessage ct raw
           = ([Handler msg], mkHttp 200 (JsonBody (JObj [("success", JBool true)])))).
Proof.
  intros Hnorm Hvalid.
  unfold handle_request. rewrite Hnorm, Hvalid.
  unfold respond, post_handler, perform, bind, try_catch.
  split; [| split].
  - intros fields H. now rewrite H.
  - intros s H. now rewrite H.
  - intros [H | H]; now rewrite H.
Qed.

(** C7. A form-encoded body whose [payload] field is not valid JSON is
    refused by the normaliser with a 400 error, and the request is answered
    with status 400 without the handler being called. *)
Theorem invalid_payload_is_client_error (raw payload : string) (err : error) :
  lookup "payload" (URLSearchParams raw) = Some payload ->
  JSON_parse payload = Throw err ->
  normalize JSON_parse URLSearchParams FormUrlencoded raw
  = Throw (mkError ("Invalid JSON in payload: " ++ message err) (Some 400%Z))
  /\ handle_request JSON_parse URLSearchParams format_ok onMessage FormUrlencoded raw
     = ([], mkHttp 400 (ErrorBody (mkError ("Invalid JSON in payload: " ++ message err)
                                           (Some 400%Z)))).
Proof.
  intros Hlk Hparse.
  assert (Hn : normalize JSON_parse URLSearchParams FormUrlencoded raw
               = Throw (mkError ("Invalid JSON in payload: " ++ message err) (Some 400%Z))).
  { unfold normalize, formParser, has_key. now rewrite Hlk, Hparse. }
  split; [exact Hn |].
  unfold handle_request. now rewrite Hn.
Qed.


(** C9, as amended.  With no [payload] field, a key other than [__proto__]
    that occurs in the flat key/value sequence, once or several times, occurs
    exactly once in the canonical object, and its value there is the string
    of its last occurrence. *)
Theorem flat_fields_last_wins (raw k : string) :
  has_key "payload" (URLSearchParams raw) = false ->
  k <> "__proto__" ->
  In k (keys (URLSearchParams raw)) ->
  exists fields v,
    formParser JSON_parse URLSearchParams raw = Ok (JObj fields)
    /\ count_key k fields = 1
    /\ last_value k (URLSearchParams raw) = Some v
    /\ lookup k fields = Some (JStr v).
Proof.
  intros Hno Hk Hin.
  destruct (last_value_present k _ Hin) as [v Hlast].
  exists (fold_fields (URLSearchParams raw) []), v.
  assert (Hlk : lookup k (fold_fields (URLSearchParams raw) []) = Some (JStr v)).
  { rewrite lookup_fold_fields by exact Hk. now rewrite Hlast. }
  repeat split; try assumption.
  - unfold formParser. now rewrite Hno.
  - apply count_key_NoDup.
    + apply NoDup_fold_fields. constructor.
    + apply lookup_In_keys. eauto.
Qed.

(** C10. An empty-string override is ignored: the call behaves as the call
    without override, and with a configured default [webhookUrl] the message
    is fetched to that default. *)
Theorem sendMessage_empty_override (msg : json) :
  sendMessage JSON_stringify fetch webhookUrl msg (Some EmptyString) = sendMessage JSON_stringify fetch webhookUrl msg None
  /\ (forall w, webhookUrl = Some w -> w <> EmptyString ->
        trace (sendMessage JSON_stringify fetch webhookUrl msg (Some EmptyString))
        = [Fetch w (post_request JSON_stringify (format_message msg))]).
Proof.
  split; [reflexivity |].
  intros w Hdefault Hne. rewrite trace_sendMessage, Hdefault.
  unfold js_or. simpl.
  destruct (String.eqb_spec w EmptyString); [contradiction | reflexivity].
Qed.

End Properties.

(** ** The repository's tests of the schema, run on the model

    test/validation.js, on [validate] with [messageSchema]; the test on
    [callback_id] is the subject of C1 below. *)

Example validates_simple_string_messages :
  validate any_format messageSchema (JStr "Hello world") = [].
Proof. reflexivity. Qed.

Example validates_object_messages_with_text :
  validate any_format messageSchema (JObj [("text", JStr "Hello world")]) = [].
Proof. reflexivity. Qed.

Example validates_complex_messages_with_attachments :
  validate any_format messageSchema
    (JObj [ ("text", JStr "Hello with attachment");
            ("attachments",
              JArr [ JObj [ ("text", JStr "Attachment text");
                            ("callback_id", JStr "test_callback");
                            ("actions",
                              JArr [ JObj [ ("type", JStr "button");
                                            ("name", JStr "action_1");
                                            ("text", JStr "Click me");
                                            ("value", JStr "btn_1");
                                            ("style", JStr "green") ] ]) ] ]) ])
  = [].
Proof. reflexivity. Qed.

Example validates_messages_with_user_ids :
  validate any_format messageSchema
    (JObj [("text", JStr "Message for specific users");
           ("user_ids", JArr [JNum 1; JNum 2; JNum 3])])
  = [].
Proof. reflexivity. Qed.

Example rejects_messages_without_text :
  In (mkVerror [] (KRequired "text"))
     (validate any_format messageSchema
        (JObj [("attachments", JArr [JObj [("text", JStr "Attachment text")]])])).
Proof. simpl. tauto. Qed.

Example rejects_invalid_button_type_and_style :
  incl [ mkVerror [Key "attachments"; Idx 0; Key "actions"; Idx 0; Key "type"] KEnum;
         mkVerror [Key "attachments"; Idx 0; Key "actions"; Idx 0; Key "style"] KEnum ]
       (validate any_format messageSchema
          (JObj [ ("text", JStr "Hello with attachment");
                  ("attachments",
                    JArr [ JObj [ ("text", JStr "Attachment text");
                                  ("callback_id", JStr "test_callback");
                                  ("actions",
                                    JArr [ JObj [ ("type", JStr "not_a_valid_type");
                                                  ("name", JStr "action_1");
                                                  ("text", JStr "Click me");
                                                  ("value", JStr "btn_1");
                                                  ("style", JStr "purple") ] ]) ] ]) ])).
Proof. intros err [<- | [<- | []]]; simpl; tauto. Qed.

Example rejects_attachments_without_text :
  In (mkVerror [Key "attachments"; Idx 0] (KRequired "text"))
     (validate any_format messageSchema
        (JObj [ ("text", JStr "Hello with attachment");
                ("attachments", JArr [ JObj [ ("callback_id", JStr "test_callback") ] ]) ])).
Proof. simpl. tauto. Qed.

Example rejects_unknown_properties :
  In (mkVerror [] (KAdditionalProperties "unknown_property"))
     (validate any_format messageSchema
        (JObj [("text", JStr "Hello world");
               ("unknown_property", JStr "This should be rejected")])).
Proof. simpl. tauto. Qed.

(** The form-encoded scenario: [text=Hello&file_url=http://example.com/a.jpg]
    is normalised to [{text: "Hello", file_url: "http://example.com/a.jpg"}]. *)
Example normalizes_flat_form_fields :
  normalize Reference.JSON_parse Reference.URLSearchParams FormUrlencoded
            "text=Hello&file_url=http://example.com/a.jpg"
  = Ok (JObj [("text", JStr "Hello"); ("file_url", JStr "http://example.com/a.jpg")]).
Proof. reflexivity. Qed.

(** test.js, "sendMessage handles errors from Synology Chat". *)
Example sendMessage_reports_status_and_text :
  completion (sendMessage Reference.JSON_stringify
                (fun _ _ => Ok (mkResponse false 400 (Throw Reference.SyntaxError)
                                           (Ok "Bad Request")))
                (Some "https://example.com/webhook") (JStr "test message") None)
  = Throw (Error "Failed to send message to Synology Chat: 400 Bad Request").
Proof. reflexivity. Qed.

(** ** The statements on concrete input *)

(** C1 (the code does not do what the claim says).  The message of the
    test "rejects attachments with actions but missing callback_id" has an
    attachment with one action and no [callback_id].  The outbound schema
    finds no violation in it, and [sendMessage], which validates nothing,
    fetches it to the configured webhook. *)
Theorem missing_callback_id_is_sent
        (format_ok : string -> string -> bool) (JSON_stringify : json -> string)
        (fetch : string -> request -> result response) :
  validate format_ok messageSchema attachment_without_callback_id = []
  /\ trace (sendMessage JSON_stringify fetch (Some "https://example.com/webhook")
                        attachment_without_callback_id None)
     = [Fetch "https://example.com/webhook"
              (post_request JSON_stringify attachment_without_callback_id)].
Proof.
  split; [reflexivity |].
  rewrite trace_sendMessage. reflexivity.
Qed.

Lemma normalize_json_and_payload_agree_witness :
  Reference.JSON_parse hello_text = Ok (JObj [("text", JStr "Hello")])
  /\ Reference.URLSearchParams "payload=%7B%22text%22%3A%22Hello%22%7D"
     = [("payload", hello_text)]
  /\ normalize Reference.JSON_parse Reference.URLSearchParams ApplicationJson hello_text
     = normalize Reference.JSON_parse Reference.URLSearchParams FormUrlencoded
                 "payload=%7B%22text%22%3A%22Hello%22%7D"
  /\ normalize Reference.JSON_parse Reference.URLSearchParams FormUrlencoded
               "payload=%7B%22text%22%3A%22Hello%22%7D"
     = Ok (JObj [("text", JStr "Hello")]).
Proof.
  split; [reflexivity | split; [reflexivity |]].
  apply (normalize_json_and_payload_agree Reference.JSON_parse Reference.URLSearchParams);
    reflexivity.
Defined.

Lemma raw_fallback_reads_used_body_witness :
  Reference.JSON_parse "OK" = Throw Reference.SyntaxError
  /\ completion (sendMessage Reference.JSON_stringify text_body_fetch
                             (Some "https://example.com/webhook") (JStr "test message") None)
     = Throw body_already_read.
Proof.
  split; [reflexivity |].
  apply (raw_fallback_reads_used_body Reference.JSON_parse Reference.JSON_stringify
           text_body_fetch (Some "https://example.com/webhook") (JStr "test message") None
           "https://example.com/webhook" 200 "OK" Reference.SyntaxError body_already_read);
    first [reflexivity | discriminate].
Defined.

Lemma sendMessage_destination_witness :
  trace (sendMessage Reference.JSON_stringify ack_fetch (Some "https://example.com/webhook")
                     (JStr "test message") (Some "https://custom-webhook.com/endpoint"))
  = [Fetch "https://custom-webhook.com/endpoint"
           (post_request Reference.JSON_stringify (JObj [("text", JStr "test message")]))]
  /\ trace (sendMessage Reference.JSON_stringify ack_fetch (Some "https://example.com/webhook")
                        (JStr "test message") None)
     = [Fetch "https://example.com/webhook"
              (post_request Reference.JSON_stringify (JObj [("text", JStr "test message")]))]
  /\ sendMessage Reference.JSON_stringify ack_fetch None (JStr "test message") None
     = ([], Throw (Error "No webhook URL provided. Set it in the plugin options or pass it to sendMessage()")).
Proof.
  split; [| split].
  - apply (proj1 (sendMessage_destination Reference.JSON_stringify ack_fetch
                    (Some "https://example.com/webhook") (JStr "test message")
                    (Some "https://custom-webhook.com/endpoint")));
      [reflexivity | discriminate].
  - apply (proj1 (proj2 (sendMessage_destination Reference.JSON_stringify ack_fetch
                           (Some "https://example.com/webhook") (JStr "test message") None)));
      [reflexivity | reflexivity | discriminate].
  - apply (proj2 (proj2 (sendMessage_destination Reference.JSON_stringify ack_fetch
                           None (JStr "test message") None)));
      reflexivity.
Defined.

Lemma handler_error_is_answered_witness :
  snd (handle_request Reference.JSON_parse Reference.URLSearchParams any_format
                      (fun _ => Throw (Error "boom")) FormUrlencoded "text=Hello")
  = mkHttp 500 (JsonBody (JObj [("success", JBool false); ("error", JStr "boom")])).
Proof.
  apply (handler_error_is_answered Reference.JSON_parse Reference.URLSearchParams any_format
           (fun _ => Throw (Error "boom")) FormUrlencoded "text=Hello"
           (JObj [("text", JStr "Hello")]) (Error "boom"));
    reflexivity.
Defined.

Lemma handler_result_mapping_witness :
  handle_request Reference.JSON_parse Reference.URLSearchParams any_format
                 (fun _ => Ok (Some (JObj [("text", JStr "Message received!")])))
                 ApplicationJson hello_text
  = ([Handler (JObj [("text", JStr "Hello")])],
     mkHttp 200 (JsonBody (JObj [("text", JStr "Message received!")])))
  /\ handle_request Reference.JSON_parse Reference.URLSearchParams any_format
                    (fun _ => Ok (Some (JStr "OK"))) ApplicationJson hello_text
     = ([Handler (JObj [("text", JStr "Hello")])], mkHttp 200 (TextBody "OK"))
  /\ handle_request Reference.JSON_parse Reference.URLSearchParams any_format
                    (fun _ => Ok None) ApplicationJson hello_text
     = ([Handler (JObj [("text", JStr "Hello")])],
        mkHttp 200 (JsonBody (JObj [("success", JBool true)]))).
Proof.
  split; [| split].
  - apply (proj1 (handler_result_mapping Reference.JSON_parse Reference.URLSearchParams
                    any_format (fun _ => Ok (Some (JObj [("text", JStr "Message received!")])))
                    ApplicationJson hello_text (JObj [("text", JStr "Hello")])
                    eq_refl eq_refl)).
    reflexivity.
  - apply (proj1 (proj2 (handler_result_mapping Reference.JSON_parse Reference.URLSearchParams
                           any_format (fun _ => Ok (Some (JStr "OK")))
                           ApplicationJson hello_text (JObj [("text", JStr "Hello")])
                           eq_refl eq_refl))).
    reflexivity.
  - apply (proj2 (proj2 (handler_result_mapping Reference.JSON_parse Reference.URLSearchParams
                           any_format (fun _ => Ok None)
                           ApplicationJson hello_text (JObj [("text", JStr "Hello")])
                           eq_refl eq_refl))).
    left. reflexivity.
Defined.

Lemma invalid_payload_is_client_error_witness :
  lookup "payload" (Reference.URLSearchParams "payload=%7Bbad") = Some "{bad"
  /\ Reference.JSON_parse "{bad" = Throw Reference.SyntaxError
  /\ handle_request Reference.JSON_parse Reference.URLSearchParams any_format
                    (fun _ => Ok None) FormUrlencoded "payload=%7Bbad"
     = ([], mkHttp 400 (ErrorBody (mkError "Invalid JSON in payload: Unexpected token in JSON"
                                           (Some 400%Z)))).
Proof.
  split; [reflexivity | split; [reflexivity |]].
  apply (proj2 (invalid_payload_is_client_error Reference.JSON_parse Reference.URLSearchParams
                  any_format (fun _ => Ok None) "payload=%7Bbad" "{bad" Reference.SyntaxError
                  eq_refl eq_refl)).
Defined.



Lemma flat_fields_last_wins_witness :
  exists fields v,
    formParser Reference.JSON_parse Reference.URLSearchParams "text=Hello&user=7&text=World"
    = Ok (JObj fields)
    /\ count_key "text" fields = 1
    /\ last_value "text" (Reference.URLSearchParams "text=Hello&user=7&text=World") = Some v
    /\ lookup "text" fields = Some (JStr v).
Proof.
  apply (flat_fields_last_wins Reference.JSON_parse Reference.URLSearchParams
           "text=Hello&user=7&text=World" "text");
    [reflexivity | discriminate | left; reflexivity].
Defined.

(** C9, as stated, fails for the key [__proto__]: the form body
    [__proto__=a&__proto__=b] has that key twice, and the canonical object is
    the empty object, in which the key does not occur. *)
Lemma proto_key_is_dropped :
  Reference.URLSearchParams "__proto__=a&__proto__=b"
  = [("__proto__", "a"); ("__proto__", "b")]
  /\ formParser Reference.JSON_parse Reference.URLSearchParams "__proto__=a&__proto__=b"
     = Ok (JObj [])
  /\ count_key "__proto__" (@nil (string * json)) = 0.
Proof. repeat split. Qed.

Lemma sendMessage_empty_override_witness :
  trace (sendMessage Reference.JSON_stringify ack_fetch (Some "https://example.com/webhook")
                     (JStr "test message") (Some EmptyString))
  = [Fetch "https://example.com/webhook"
           (post_request Reference.JSON_stringify (JObj [("text", JStr "test message")]))].
Proof.
  apply (proj2 (sendMessage_empty_override Reference.JSON_stringify ack_fetch
                  (Some "https://example.com/webhook") (JStr "test message"))
               "https://example.com/webhook");
    [reflexivity | discriminate].
Defined.

(** * Further properties of the code *)

(** ** Induction on schemas *)

Section SchemaInduction.

Variable P : schema -> Prop.

Hypothesis P_Schema :
  forall t e f props items req additional,
    Forall (fun ks => P (snd ks)) props ->
    match items with Some si => P si | None => True end ->
    P (Schema t e f props items req additional).

Hypothesis P_OneOf : forall alternatives, Forall P alternatives -> P (OneOf alternatives).

Fixpoint schema_induction (s : schema) : P s :=
  match s with
  | Schema t e f props items req additional =>
      P_Schema t e f props items req additional
        ((fix each (l : list (string * schema)) : Forall (fun ks => P (snd ks)) l :=
            match l with
            | [] => Forall_nil _
            | ks :: l' => Forall_cons ks (schema_induction (snd ks)) (each l')
            end) props)
        (match items as o return match o with Some si => P si | None => True end with
         | Some si => schema_induction si
         | None => I
         end)
  | OneOf alternatives =>
      P_OneOf alternatives
        ((fix each (l : list schema) : Forall P l :=
            match l with
            | [] => Forall_nil _
            | a :: l' => Forall_cons a (schema_induction a) (each l')
            end) alternatives)
  end.

End SchemaInduction.

(** ** When a list of violations is empty *)

Lemma flat_map_nil (A B : Type) (f : A -> list B) (l : list A) :
  flat_map f l = [] <-> (forall x, In x l -> f x = []).
Proof.
  induction l as [| a l IH]; simpl.
  - split; [intros _ x [] | reflexivity].
  - split.
    + intros H. apply app_eq_nil in H. destruct H as [Ha Hl].
      intros x [<- | Hx]; [exact Ha | now apply IH].
    + intros H. rewrite (H a (or_introl eq_refl)). apply IH.
      intros x Hx. apply H. now right.
Qed.

Lemma app_nil_both (A : Type) (l l' : list A) : l = [] -> l' = [] -> l ++ l' = [].
Proof. intros -> ->. reflexivity. Qed.

Lemma In_indexed_all (A : Type) (l : list A) (x : A) :
  In x l -> exists i, In (i, x) (indexed l).
Proof.
  intros H. apply In_nth_error in H. destruct H as [i H].
  exists i. now apply In_indexed.
Qed.

Lemma existsb_eqb_In (k : string) (l : list string) :
  existsb (String.eqb k) l = true <-> In k l.
Proof.
  rewrite existsb_exists. split.
  - intros [x [Hx Heq]]. apply String.eqb_eq in Heq. now subst.
  - intros H. exists k. split; [exact H | apply String.eqb_refl].
Qed.

Lemma type_weaker_sound (t1 t2 : option jtype) (p1 p2 : path) (v : json) :
  type_weaker t1 t2 = true -> type_errors t1 p1 v = [] -> type_errors t2 p2 v = [].
Proof.
  unfold type_errors.
  destruct t2 as [b |]; [| reflexivity].
  destruct t1 as [a |]; [| destruct b; discriminate].
  destruct a, b; simpl; try discriminate; intros _;
    destruct v; simpl; try discriminate; try reflexivity.
  destruct (is_integer q); [reflexivity | discriminate].
Qed.

Lemma enum_weaker_sound (e1 e2 : option (list string)) (p1 p2 : path) (v : json) :
  enum_weaker e1 e2 = true -> enum_errors e1 p1 v = [] -> enum_errors e2 p2 v = [].
Proof.
  unfold enum_errors.
  destruct e2 as [l2 |]; [| reflexivity].
  destruct e1 as [l1 |]; [| discriminate].
  simpl. intros Hsub.
  destruct (in_enum l1 v) eqn:H1; [| discriminate]. intros _.
  destruct v; simpl in *; try discriminate.
  apply existsb_eqb_In in H1.
  rewrite forallb_forall in Hsub. rewrite (Hsub s H1). reflexivity.
Qed.

Section Subsumption.

Variable format_ok : string -> string -> bool.

Set Default Proof Using "Type".

Lemma format_weaker_sound (f1 f2 : option string) (p1 p2 : path) (v : json) :
  format_weaker f1 f2 = true ->
  format_errors format_ok f1 p1 v = [] -> format_errors format_ok f2 p2 v = [].
Proof.
  unfold format_errors.
  destruct f2 as [b |]; [| reflexivity].
  destruct f1 as [a |]; [| discriminate].
  simpl. intros Heq. apply String.eqb_eq in Heq. subst b.
  destruct v; try reflexivity.
  destruct (format_ok a s); [reflexivity | discriminate].
Qed.

(** What [subsumes] decides is true of the validator. *)
Lemma subsumes_sound (loose : schema) :
  forall (strict : schema) (p1 p2 : path) (v : json),
    subsumes strict loose = true ->
    validate_at format_ok strict p1 v = [] ->
    validate_at format_ok loose p2 v = [].
Proof.
  induction loose as [t2 e2 f2 props2 items2 req2 addl2 IHprops IHitems | alts _]
    using schema_induction;
    intros strict p1 p2 v Hsub Hvalid; [| destruct strict; discriminate].
  destruct strict as [t1 e1 f1 props1 items1 req1 addl1 | alts]; [| discriminate].
  simpl in Hsub.
  repeat (apply andb_prop in Hsub; destruct Hsub as [Hsub ?]).
  simpl in Hvalid.
  apply app_eq_nil in Hvalid. destruct Hvalid as [Htype Hvalid].
  apply app_eq_nil in Hvalid. destruct Hvalid as [Henum Hvalid].
  apply app_eq_nil in Hvalid. destruct Hvalid as [Hformat Hrest].
  simpl.
  rewrite (type_weaker_sound t1 t2 p1 p2 v) by assumption.
  rewrite (enum_weaker_sound e1 e2 p1 p2 v) by assumption.
  rewrite (format_weaker_sound f1 f2 p1 p2 v) by assumption.
  simpl.
  destruct v as [| | | | elems | fields]; try reflexivity.
  - (* arrays *)
    destruct items2 as [b |]; [| reflexivity].
    destruct items1 as [a |]; [| discriminate].
    apply flat_map_nil. intros [i x] Hix.
    rewrite flat_map_nil in Hrest.
    apply (IHitems a (p1 ++ [Idx i]) _ x); [assumption |].
    apply (Hrest (i, x) Hix).
  - (* objects *)
    apply app_eq_nil in Hrest. destruct Hrest as [Hreq Hrest].
    apply app_eq_nil in Hrest. destruct Hrest as [Hadd Hprops].
    apply app_nil_both; [| apply app_nil_both].
    + unfold required_errors in *. apply flat_map_nil. intros r Hr.
      rewrite flat_map_nil in Hreq.
      match goal with
      | Hq : forallb _ req2 = true |- _ =>
          rewrite forallb_forall in Hq; specialize (Hq r Hr);
          apply existsb_eqb_In in Hq; specialize (Hreq r Hq)
      end.
      simpl in Hreq. destruct (has_key r fields); [reflexivity | discriminate].
    + unfold additional_errors in *.
      destruct addl2; [reflexivity |].
      match goal with
      | Ha : (false || _)%bool = true |- _ =>
          simpl in Ha; apply andb_prop in Ha; destruct Ha as [Ha1 Ha2]
      end.
      destruct addl1; [discriminate |].
      apply flat_map_nil. intros k Hk.
      rewrite flat_map_nil in Hadd. specialize (Hadd k Hk).
      destruct (existsb (String.eqb k) (keys props1)) eqn:Hk1; [| discriminate].
      apply existsb_eqb_In in Hk1.
      rewrite forallb_forall in Ha2. specialize (Ha2 k Hk1). now rewrite Ha2.
    + apply flat_map_nil. intros ks2 Hks2.
      rewrite flat_map_nil in Hprops.
      match goal with
      | Hp : forallb _ props2 = true |- _ =>
          rewrite forallb_forall in Hp; specialize (Hp ks2 Hks2);
          apply existsb_exists in Hp; destruct Hp as [ks1 [Hks1 Hp]];
          apply andb_prop in Hp; destruct Hp as [Hkey Hs]
      end.
      apply String.eqb_eq in Hkey.
      specialize (Hprops ks1 Hks1). rewrite Hkey in Hprops.
      destruct (lookup (fst ks2) fields) as [x |]; [| reflexivity].
      rewrite Forall_forall in IHprops.
      exact (IHprops ks2 Hks2 (snd ks1) _ _ x Hs Hprops).
Qed.

End Subsumption.

(** ** The two schemas *)

Lemma lookup_In (A : Type) (k : string) (l : list (string * A)) (x : A) :
  lookup k l = Some x -> In (k, x) l.
Proof.
  induction l as [| [k' v'] l IH]; simpl; [discriminate |].
  destruct (String.eqb_spec k k') as [-> | Hne].
  - intros H. injection H as ->. now left.
  - intros H. right. now apply IH.
Qed.

Section SchemaProperties.

Variable format_ok : string -> string -> bool.

Set Default Proof Using "Type".

Lemma nested_violations (q : path) :
  forall (s s' : schema) (p : path) (v x : json),
    schema_at s q = Some s' ->
    resolve v q = Some x ->
    incl (validate_at format_ok s' (p ++ q) x) (validate_at format_ok s p v).
Proof.
  induction q as [| [k | i] q IH]; intros s s' p v x Hs Hv; simpl in Hs, Hv.
  - injection Hs as <-. injection Hv as <-. rewrite app_nil_r. apply incl_refl.
  - destruct s as [t e f props items req addl |]; [| discriminate].
    destruct (lookup k props) as [sk |] eqn:Hsk; [| discriminate].
    destruct v as [| | | | | fields]; try discriminate.
    destruct (lookup k fields) as [y |] eqn:Hy; [| discriminate].
    replace (p ++ Key k :: q) with ((p ++ [Key k]) ++ q) by now rewrite <- app_assoc.
    eapply incl_tran; [apply (IH sk s' _ y x Hs Hv) |].
    apply validate_at_property; [now apply lookup_In | exact Hy].
  - destruct s as [t e f props [si |] req addl |]; try discriminate.
    destruct v as [| | | | elems |]; try discriminate.
    destruct (nth_error elems i) as [y |] eqn:Hy; [| discriminate].
    replace (p ++ Idx i :: q) with ((p ++ [Idx i]) ++ q) by now rewrite <- app_assoc.
    eapply incl_tran; [apply (IH si s' _ y x Hs Hv) |].
    now apply validate_at_item.
Qed.

Lemma outbound_object_violations (fields : list (string * json)) :
  incl (validate_at format_ok messageObjectSchema [] (JObj fields))
       (validate format_ok messageSchema (JObj fields)).
Proof.
  intros err Herr. rewrite validate_messageSchema_object.
  destruct (validate_at format_ok messageObjectSchema [] (JObj fields)) as [| e0 errs];
    [contradiction |].
  right. apply in_or_app. now left.
Qed.

Lemma violations_of_nested_values (fields : list (string * json)) (q : path) (x : json) :
  resolve (JObj fields) q = Some x ->
  (forall s', schema_at messageObjectSchema q = Some s' ->
     incl (validate_at format_ok s' q x) (validate format_ok messageSchema (JObj fields)))
  /\ (forall s', schema_at webhookSchema q = Some s' ->
        incl (validate_at format_ok s' q x) (validate format_ok webhookSchema (JObj fields))).
Proof.
  intros Hx. split; intros s' Hs.
  - eapply incl_tran; [| apply outbound_object_violations].
    exact (nested_violations q messageObjectSchema s' [] (JObj fields) x Hs Hx).
  - exact (nested_violations q webhookSchema s' [] (JObj fields) x Hs Hx).
Qed.

Lemma required_reported t e f props items req additional
      (p : path) (fields : list (string * json)) (r : string) :
  In r req ->
  has_key r fields = false ->
  In (mkVerror p (KRequired r))
     (validate_at format_ok (Schema t e f props items req additional) p (JObj fields)).
Proof.
  intros Hr Hmissing. simpl.
  do 3 (apply in_or_app; right). apply in_or_app; left.
  unfold required_errors. apply in_flat_map. exists r. split; [exact Hr |].
  rewrite Hmissing. now left.
Qed.

Lemma additional_reported t e f props items req
      (p : path) (fields : list (string * json)) (k : string) :
  In k (keys fields) ->
  existsb (String.eqb k) (keys props) = false ->
  In (mkVerror p (KAdditionalProperties k))
     (validate_at format_ok (Schema t e f props items req false) p (JObj fields)).
Proof.
  intros Hk Hunknown. simpl.
  do 4 (apply in_or_app; right). apply in_or_app; left.
  unfold additional_errors. apply in_flat_map. exists k. split; [exact Hk |].
  rewrite Hunknown. now left.
Qed.

Lemma enum_reported (vs : list string) (p : path) (v : json) :
  in_enum vs v = false ->
  In (mkVerror p KEnum) (validate_at format_ok (string_enum vs) p v).
Proof.
  intros H. unfold string_enum. simpl.
  apply in_or_app; right. apply in_or_app; left.
  unfold enum_errors. rewrite H. now left.
Qed.

(** X2. A message object without a [text] property has a
    missing-required-property violation for [text] at the root, on both
    profiles. *)
Theorem message_text_is_required (fields : list (string * json)) :
  has_key "text" fields = false ->
  In (mkVerror [] (KRequired "text")) (validate format_ok messageSchema (JObj fields))
  /\ In (mkVerror [] (KRequired "text")) (validate format_ok webhookSchema (JObj fields)).
Proof.
  intros H. split.
  - apply outbound_object_violations.
    apply required_reported; [now left | exact H].
  - apply required_reported; [now left | exact H].
Qed.

(** X3. An attachment without a [text] property has a
    missing-required-property violation for [text] at the attachment's path
    [/attachments/i], on both profiles. *)
Theorem attachment_text_is_required (fields : list (string * json)) (i : nat)
        (attachment : list (string * json)) :
  resolve (JObj fields) [Key "attachments"; Idx i] = Some (JObj attachment) ->
  has_key "text" attachment = false ->
  In (mkVerror [Key "attachments"; Idx i] (KRequired "text"))
     (validate format_ok messageSchema (JObj fields))
  /\ In (mkVerror [Key "attachments"; Idx i] (KRequired "text"))
        (validate format_ok webhookSchema (JObj fields)).
Proof.
  intros Hat Hmissing.
  destruct (violations_of_nested_values fields _ _ Hat) as [Hout Hin].
  split.
  - apply (Hout attachmentSchema eq_refl).
    apply required_reported; [now left | exact Hmissing].
  - apply (Hin webhookAttachmentSchema eq_refl).
    apply required_reported; [now left | exact Hmissing].
Qed.

(** X4. An action that lacks one of [type], [name], [text], [value] has a
    missing-required-property violation for it at the action's path
    [/attachments/i/actions/j], on both profiles. *)
Theorem action_fields_are_required (fields : list (string * json)) (i j : nat)
        (action : list (string * json)) (r : string) :
  resolve (JObj fields) [Key "attachments"; Idx i; Key "actions"; Idx j]
  = Some (JObj action) ->
  In r ["type"; "name"; "text"; "value"] ->
  has_key r action = false ->
  In (mkVerror [Key "attachments"; Idx i; Key "actions"; Idx j] (KRequired r))
     (validate format_ok messageSchema (JObj fields))
  /\ In (mkVerror [Key "attachments"; Idx i; Key "actions"; Idx j] (KRequired r))
        (validate format_ok webhookSchema (JObj fields)).
Proof.
  intros Hat Hr Hmissing.
  destruct (violations_of_nested_values fields _ _ Hat) as [Hout Hin].
  split.
  - apply (Hout actionSchema eq_refl).
    apply required_reported; [exact Hr | exact Hmissing].
  - apply (Hin webhookActionSchema eq_refl).
    apply required_reported; [exact Hr | exact Hmissing].
Qed.

(** X5. An action whose [type] is anything but the string [button] has an
    enumeration violation at [/attachments/i/actions/j/type] on the outbound
    profile, and on the inbound profile as well when the [type] is a
    string. *)
Theorem action_type_must_be_button (fields : list (string * json)) (i j : nat) (v : json) :
  resolve (JObj fields) [Key "attachments"; Idx i; Key "actions"; Idx j; Key "type"]
  = Some v ->
  v <> JStr "button" ->
  In (mkVerror [Key "attachments"; Idx i; Key "actions"; Idx j; Key "type"] KEnum)
     (validate format_ok messageSchema (JObj fields))
  /\ (has_type TString v = true ->
      In (mkVerror [Key "attachments"; Idx i; Key "actions"; Idx j; Key "type"] KEnum)
         (validate format_ok webhookSchema (JObj fields))).
Proof.
  intros Hat Hv.
  assert (Henum : in_enum ["button"] v = false).
  { destruct v as [| | | s | |]; try reflexivity. simpl.
    destruct (String.eqb_spec s "button") as [-> | Hne]; [contradiction | reflexivity]. }
  destruct (violations_of_nested_values fields _ _ Hat) as [Hout Hin].
  split.
  - apply (Hout (string_enum ["button"]) eq_refl). now apply enum_reported.
  - intros _. apply (Hin (string_enum ["button"]) eq_refl). now apply enum_reported.
Qed.

(** X6. An action whose [style] is present and is not one of the strings
    green, grey, red, orange, blue, teal has an enumeration violation at
    [/attachments/i/actions/j/style] on the outbound profile, and on the
    inbound profile as well when the [style] is a string. *)
Theorem action_style_must_be_listed (fields : list (string * json)) (i j : nat) (v : json) :
  resolve (JObj fields) [Key "attachments"; Idx i; Key "actions"; Idx j; Key "style"]
  = Some v ->
  (forall s, In s button_styles -> v <> JStr s) ->
  In (mkVerror [Key "attachments"; Idx i; Key "actions"; Idx j; Key "style"] KEnum)
     (validate format_ok messageSchema (JObj fields))
  /\ (has_type TString v = true ->
      In (mkVerror [Key "attachments"; Idx i; Key "actions"; Idx j; Key "style"] KEnum)
         (validate format_ok webhookSchema (JObj fields))).
Proof.
  intros Hat Hv.
  assert (Henum : in_enum button_styles v = false).
  { destruct v as [| | | s | |]; try reflexivity.
    change (in_enum button_styles (JStr s)) with (existsb (String.eqb s) button_styles).
    destruct (existsb (String.eqb s) button_styles) eqn:He; [| reflexivity].
    apply existsb_eqb_In in He. now destruct (Hv s He). }
  destruct (violations_of_nested_values fields _ _ Hat) as [Hout Hin].
  split.
  - apply (Hout (string_enum button_styles) eq_refl). now apply enum_reported.
  - intros _. apply (Hin (string_enum button_styles) eq_refl). now apply enum_reported.
Qed.

(** A schema reports only the kinds of violation its keywords can produce. *)
Lemma may_report_sound (s : schema) :
  forall (p : path) (v : json) (err : verror),
    In err (validate_at format_ok s p v) -> may_report s (kind err) = true.
Proof.
  induction s as [t e f props items req addl IHprops IHitems | alts IHalts]
    using schema_induction; intros p v err Herr.
  - simpl in Herr. simpl may_report.
    apply in_app_or in Herr. destruct Herr as [Herr | Herr].
    { unfold type_errors in Herr. destruct t as [t |]; [| contradiction].
      destruct (has_type t v); [contradiction |].
      destruct Herr as [<- | []]. simpl. now destruct t. }
    apply in_app_or in Herr. destruct Herr as [Herr | Herr].
    { unfold enum_errors in Herr. destruct e as [vs |]; [| contradiction].
      destruct (in_enum vs v); [contradiction |].
      destruct Herr as [<- | []]. reflexivity. }
    apply in_app_or in Herr. destruct Herr as [Herr | Herr].
    { unfold format_errors in Herr. destruct f as [f |]; [| contradiction].
      destruct v; try contradiction.
      destruct (format_ok f s); [contradiction |].
      destruct Herr as [<- | []]. simpl. now rewrite String.eqb_refl. }
    destruct v as [| | | | elems | fields]; try contradiction.
    + destruct items as [si |]; [| contradiction].
      apply in_flat_map in Herr. destruct Herr as [[i x] [_ Herr]].
      rewrite (IHitems _ _ _ Herr). now rewrite !orb_true_r.
    + apply in_app_or in Herr. destruct Herr as [Herr | Herr].
      { unfold required_errors in Herr. apply in_flat_map in Herr.
        destruct Herr as [r [Hr Herr]].
        destruct (has_key r fields); [contradiction |].
        destruct Herr as [<- | []]. simpl.
        replace (existsb (String.eqb r) req) with true; [reflexivity |].
        symmetry. now apply existsb_eqb_In. }
      apply in_app_or in Herr. destruct Herr as [Herr | Herr].
      { unfold additional_errors in Herr. destruct addl; [contradiction |].
        apply in_flat_map in Herr. destruct Herr as [k [_ Herr]].
        destruct (existsb (String.eqb k) (keys props)); [contradiction |].
        destruct Herr as [<- | []]. reflexivity. }
      apply in_flat_map in Herr. destruct Herr as [ks [Hks Herr]].
      destruct (lookup (fst ks) fields) as [x |]; [| contradiction].
      rewrite Forall_forall in IHprops.
      assert (Hex : existsb (fun ks0 => may_report (snd ks0) (kind err)) props = true).
      { apply existsb_exists. exists ks. split; [exact Hks |].
        exact (IHprops ks Hks _ _ _ Herr). }
      rewrite Hex. now rewrite orb_true_r.
  - change (validate_at format_ok (OneOf alts) p v)
      with (let results := map (fun a => validate_at format_ok a p v) alts in
            if Nat.eqb (passing results) 1 then []
            else List.concat results ++ [mkVerror p KOneOf]) in Herr.
    cbv zeta in Herr. simpl may_report.
    destruct (Nat.eqb (passing (map (fun a => validate_at format_ok a p v) alts)) 1);
      [contradiction |].
    apply in_app_or in Herr. destruct Herr as [Herr | [<- | []]]; [| reflexivity].
    apply in_concat in Herr. destruct Herr as [errs [Herrs Herr]].
    apply in_map_iff in Herrs. destruct Herrs as [a [<- Ha]].
    rewrite Forall_forall in IHalts.
    assert (Hex : existsb (fun a0 => may_report a0 (kind err)) alts = true).
    { apply existsb_exists. exists a. split; [exact Ha | exact (IHalts a Ha _ _ _ Herr)]. }
    rewrite Hex. now rewrite orb_true_r.
Qed.

(** X7. The outbound profile is closed at every level: a property that the
    schema does not list is an unexpected-property violation at the object
    that has it, be it the message, an attachment or an action. *)
Theorem outbound_rejects_unknown_properties (fields : list (string * json)) :
  (forall k, In k (keys fields) ->
     ~ In k ["text"; "file_url"; "user_ids"; "attachments"] ->
     In (mkVerror [] (KAdditionalProperties k))
        (validate format_ok messageSchema (JObj fields)))
  /\ (forall i attachment k,
        resolve (JObj fields) [Key "attachments"; Idx i] = Some (JObj attachment) ->
        In k (keys attachment) ->
        ~ In k ["callback_id"; "text"; "actions"] ->
        In (mkVerror [Key "attachments"; Idx i] (KAdditionalProperties k))
           (validate format_ok messageSchema (JObj fields)))
  /\ (forall i j action k,
        resolve (JObj fields) [Key "attachments"; Idx i; Key "actions"; Idx j]
        = Some (JObj action) ->
        In k (keys action) ->
        ~ In k ["type"; "text"; "name"; "value"; "style"] ->
        In (mkVerror [Key "attachments"; Idx i; Key "actions"; Idx j]
                     (KAdditionalProperties k))
           (validate format_ok messageSchema (JObj fields))).
Proof.
  assert (Hunknown : forall k l, ~ In k l -> existsb (String.eqb k) l = false).
  { intros k l H. destruct (existsb (String.eqb k) l) eqn:He; [| reflexivity].
    apply existsb_eqb_In in He. contradiction. }
  split; [| split].
  - intros k Hk Hnot. apply outbound_object_violations.
    apply additional_reported; [exact Hk | now apply Hunknown].
  - intros i attachment k Hat Hk Hnot.
    apply (proj1 (violations_of_nested_values fields _ _ Hat) attachmentSchema eq_refl).
    apply additional_reported; [exact Hk | now apply Hunknown].
  - intros i j action k Hat Hk Hnot.
    apply (proj1 (violations_of_nested_values fields _ _ Hat) actionSchema eq_refl).
    apply additional_reported; [exact Hk | now apply Hunknown].
Qed.

(** X8. The inbound profile is open and unformatted at every level: for no
    value does it report an unexpected-property violation, a format violation
    or a [oneOf] violation. *)
Theorem inbound_never_reports_unknown_properties (v : json) (err : verror) :
  In err (validate format_ok webhookSchema v) ->
  (forall k, kind err <> KAdditionalProperties k)
  /\ (forall f, kind err <> KFormat f)
  /\ kind err <> KOneOf.
Proof.
  intros Herr. apply may_report_sound in Herr.
  split; [| split].
  - intros k Hk. rewrite Hk in Herr. discriminate.
  - intros f Hk. rewrite Hk in Herr. discriminate.
  - intros Hk. rewrite Hk in Herr. discriminate.
Qed.

(** X9. What the inbound profile reports for a message object depends only
    on its properties [text], [file_url], [user_ids] and [attachments]:
    two objects that agree on these four have the same violations. *)
Theorem inbound_reads_four_properties (fields fields' : list (string * json)) :
  (forall k, In k ["text"; "file_url"; "user_ids"; "attachments"] ->
     lookup k fields = lookup k fields') ->
  validate format_ok webhookSchema (JObj fields)
  = validate format_ok webhookSchema (JObj fields').
Proof.
  intros H.
  assert (Ht : lookup "text" fields = lookup "text" fields') by (apply H; simpl; tauto).
  assert (Hf : lookup "file_url" fields = lookup "file_url" fields')
    by (apply H; simpl; tauto).
  assert (Hu : lookup "user_ids" fields = lookup "user_ids" fields')
    by (apply H; simpl; tauto).
  assert (Ha : lookup "attachments" fields = lookup "attachments" fields')
    by (apply H; simpl; tauto).
  unfold validate, webhookSchema, object_of.
  cbn [validate_at type_errors enum_errors format_errors has_type required_errors
       additional_errors flat_map fst snd app has_key].
  unfold has_key. now rewrite Ht, Hf, Hu, Ha.
Qed.

(** X10. A bare string is a valid outbound message, whatever the string; the
    inbound profile reports a wrong-type violation at the root for every
    value that is not an object; and the outbound profile reports a [oneOf]
    violation at the root for every value that is neither a string nor an
    object. *)
Theorem bare_strings_are_outbound_only :
  (forall s, validate format_ok messageSchema (JStr s) = [])
  /\ (forall v, (forall fields, v <> JObj fields) ->
        In (mkVerror [] (KType TObject)) (validate format_ok webhookSchema v))
  /\ (forall v, (forall s, v <> JStr s) -> (forall fields, v <> JObj fields) ->
        In (mkVerror [] KOneOf) (validate format_ok messageSchema v)).
Proof.
  split; [| split].
  - intros s. reflexivity.
  - intros v Hv. destruct v; try (now left). now destruct (Hv fields).
  - intros v Hs Ho.
    destruct v; try (simpl; tauto); [now destruct (Hs s) | now destruct (Ho fields)].
Qed.

Lemma messageObjectSchema_subsumed : subsumes messageObjectSchema webhookSchema = true.
Proof. reflexivity. Qed.

(** X11. What the plugin may send it would also accept: if a message is
    valid on the outbound profile, then the payload [sendMessage] makes of it
    (the message itself, or [{text: s}] for a string [s]) is valid on the
    outbound profile and on the inbound profile. *)
Theorem valid_outbound_payload_is_valid_inbound (msg : json) :
  validate format_ok messageSchema msg = [] ->
  validate format_ok messageSchema (format_message msg) = []
  /\ validate format_ok webhookSchema (format_message msg) = [].
Proof.
  intros Hvalid.
  destruct msg as [| b | q | s | elems | fields]; try discriminate.
  - split; reflexivity.
  - split; [exact Hvalid |].
    rewrite validate_messageSchema_object in Hvalid.
    destruct (validate_at format_ok messageObjectSchema [] (JObj fields)) eqn:Hobj;
      [| discriminate].
    exact (subsumes_sound format_ok webhookSchema messageObjectSchema [] [] (JObj fields)
             messageObjectSchema_subsumed Hobj).
Qed.

End SchemaProperties.

(** ** The sender, the form parser, the route handler and registration *)

Lemma In_obj_define (fields : list (string * json)) (k k' : string) (v v' : json) :
  In (k, v) (obj_define fields k' v') -> In (k, v) fields \/ (k = k' /\ v = v').
Proof.
  induction fields as [| [k0 v0] fields IH]; simpl.
  - intros [H | []]. injection H as <- <-. now right.
  - destruct (String.eqb_spec k' k0) as [-> | Hne]; simpl.
    + intros [H | H]; [injection H as <- <-; now right | left; now right].
    + intros [H | H]; [left; now left |].
      destruct (IH H) as [Hin | Heq]; [left; now right | now right].
Qed.

Lemma fold_fields_values (params : list (string * string)) :
  forall (result : list (string * json)) (k : string) (v : json),
    In (k, v) (fold_fields params result) ->
    In (k, v) result \/ exists s, v = JStr s.
Proof.
  unfold fold_fields.
  induction params as [| [k' s'] params IH]; simpl; intros result k v H; [now left |].
  destruct (IH _ _ _ H) as [Hin | Hstr]; [| now right].
  unfold obj_assign in Hin. simpl in Hin.
  destruct (String.eqb k' "__proto__"); [now left |].
  destruct (In_obj_define _ _ _ _ _ Hin) as [Hold | [_ ->]]; [now left | right; eauto].
Qed.

Lemma fold_fields_keys (params : list (string * string)) :
  forall (result : list (string * json)) (k : string),
    In k (keys (fold_fields params result)) ->
    In k (keys result) \/ (In k (keys params) /\ k <> "__proto__").
Proof.
  unfold fold_fields.
  induction params as [| [k' s'] params IH]; simpl; intros result k H; [now left |].
  destruct (IH _ _ H) as [Hin | [Hin Hne]]; [| right; split; [now right | exact Hne]].
  unfold obj_assign in Hin. simpl in Hin.
  destruct (String.eqb_spec k' "__proto__") as [-> | Hne]; [now left |].
  destruct (In_keys_obj_define _ _ _ _ Hin) as [-> | Hold]; [| now left].
  right. split; [now left | exact Hne].
Qed.

Section SenderAndParser.

Variable JSON_parse : string -> result json.
Variable JSON_stringify : json -> string.
Variable URLSearchParams : string -> list (string * string).
Variable fetch : string -> request -> result response.
Variable onMessage : json -> result jsvalue.
Variable webhookUrl : option string.

Set Default Proof Using "Type".

(** X12. Whatever the message, the override and the remote end's answer,
    [sendMessage] makes at most one request, never a second one after a
    failure; the request goes to the resolved, non-empty URL, with method
    POST, the header [Content-Type: application/json] and as body the JSON
    text of the payload. *)
Theorem sendMessage_posts_once (msg : json) (url : option string) :
  (length (trace (sendMessage JSON_stringify fetch webhookUrl msg url)) <= 1)%nat
  /\ forall ev, In ev (trace (sendMessage JSON_stringify fetch webhookUrl msg url)) ->
       exists target,
         js_or url webhookUrl = Some target
         /\ target <> EmptyString
         /\ ev = Fetch target
                   (mkRequest "POST" [("Content-Type", "application/json")]
                              (JSON_stringify (format_message msg))).
Proof.
  rewrite trace_sendMessage.
  destruct (js_or url webhookUrl) as [target |]; [| split; [auto | intros ev []]].
  destruct (String.eqb_spec target EmptyString) as [-> | Hne];
    [split; [auto | intros ev []] |].
  split; [auto |].
  intros ev [<- | []]. exists target. repeat split; assumption.
Qed.

(** X13. Sending a message and sending the payload made of it are the same
    call: in particular [sendMessage("s")] does exactly what
    [sendMessage({text: "s"})] does. *)
Theorem sendMessage_of_payload (msg : json) (url : option string) :
  sendMessage JSON_stringify fetch webhookUrl (format_message msg) url
  = sendMessage JSON_stringify fetch webhookUrl msg url
  /\ forall s, sendMessage JSON_stringify fetch webhookUrl (JStr s) url
               = sendMessage JSON_stringify fetch webhookUrl (JObj [("text", JStr s)]) url.
Proof.
  split; [| reflexivity].
  unfold sendMessage.
  replace (format_message (format_message msg)) with (format_message msg);
    [reflexivity | now destruct msg].
Qed.

(** X14. When the remote end answers with a status that is not a success,
    [sendMessage] throws an error whose message holds the status and the text
    of the response; the JSON reader of the response is not consulted. *)
Theorem sendMessage_failure_names_status (msg : json) (url : option string)
        (target : string) (r : response) (errorText : string) :
  js_or url webhookUrl = Some target ->
  target <> EmptyString ->
  fetch target (post_request JSON_stringify (format_message msg)) = Ok r ->
  res_ok r = false ->
  res_text r = Ok errorText ->
  completion (sendMessage JSON_stringify fetch webhookUrl msg url)
  = Throw (Error ("Failed to send message to Synology Chat: "
                  ++ string_of_number (res_status r) ++ " " ++ errorText)).
Proof.
  intros Htarget Hne Hfetch Hok Htext.
  unfold sendMessage. rewrite Htarget, (truthy_Some target Hne). simpl.
  unfold call_fetch, perform, bind. rewrite Hfetch, Hok. simpl.
  now rewrite Htext.
Qed.

(** X15. Errors of the transport are passed on as they are: when [fetch]
    itself rejects, [sendMessage] rejects with that error; when the response
    is not a success, or is a success whose JSON cannot be read, and reading
    its text rejects, [sendMessage] rejects with the error of the text
    reader. *)
Theorem sendMessage_passes_errors_on (msg : json) (url : option string)
        (target : string) (e : error) :
  js_or url webhookUrl = Some target ->
  target <> EmptyString ->
  (fetch target (post_request JSON_stringify (format_message msg)) = Throw e ->
   completion (sendMessage JSON_stringify fetch webhookUrl msg url) = Throw e)
  /\ (forall r,
        fetch target (post_request JSON_stringify (format_message msg)) = Ok r ->
        res_text r = Throw e ->
        res_ok r = false \/ (exists e', res_json r = Throw e') ->
        completion (sendMessage JSON_stringify fetch webhookUrl msg url) = Throw e).
Proof.
  intros Htarget Hne.
  unfold sendMessage. rewrite Htarget, (truthy_Some target Hne). simpl.
  unfold call_fetch, perform, bind.
  split.
  - intros Hfetch. now rewrite Hfetch.
  - intros r Hfetch Htext Hcase. rewrite Hfetch.
    destruct (res_ok r) eqn:Hok; simpl.
    + destruct Hcase as [Hcase | [e' Hjson]]; [discriminate |].
      rewrite Hjson. simpl. now rewrite Htext.
    + now rewrite Htext.
Qed.

(** X16. [sendMessage] returns a value only after a successful response: if
    the call returns [v], then a URL was resolved, [fetch] resolved to a
    response with [ok] true, and [v] is either what the response's JSON
    reader gave or, when that reader failed, [{success: true, raw: <text>}]. *)
Theorem sendMessage_returns_only_on_success (msg : json) (url : option string) (v : json) :
  completion (sendMessage JSON_stringify fetch webhookUrl msg url) = Ok v ->
  exists target r,
    js_or url webhookUrl = Some target
    /\ fetch target (post_request JSON_stringify (format_message msg)) = Ok r
    /\ res_ok r = true
    /\ (res_json r = Ok v
        \/ exists e raw, res_json r = Throw e /\ res_text r = Ok raw
                         /\ v = JObj [("success", JBool true); ("raw", JStr raw)]).
Proof.
  unfold sendMessage.
  destruct (js_or url webhookUrl) as [target |] eqn:Htarget; simpl; [| discriminate].
  destruct (String.eqb target EmptyString); simpl; [discriminate |].
  unfold call_fetch, perform, bind.
  destruct (fetch target (post_request JSON_stringify (format_message msg)))
    as [r | e] eqn:Hfetch; [| discriminate].
  destruct (res_ok r) eqn:Hok; simpl.
  - destruct (res_json r) as [j | e] eqn:Hjson; simpl.
    + intros H. injection H as <-. exists target, r. auto.
    + destruct (res_text r) as [raw | e'] eqn:Htext; simpl; [| discriminate].
      intros H. injection H as <-. exists target, r.
      repeat split; try assumption. right. exists e, raw. auto.
  - destruct (res_text r); simpl; discriminate.
Qed.

(** X17. When the form body has a [payload] field, the other fields are
    discarded, and of several [payload] fields the first counts: the
    canonical message is whatever JSON value that field's text parses to. *)
Theorem payload_field_decides (raw payload : string) (v : json) :
  lookup "payload" (URLSearchParams raw) = Some payload ->
  JSON_parse payload = Ok v ->
  formParser JSON_parse URLSearchParams raw = Ok v.
Proof.
  intros Hlk Hparse. unfold formParser, has_key. now rewrite Hlk, Hparse.
Qed.

(** X18. Without a [payload] field the form parser always succeeds, and the
    canonical message is an object whose keys are exactly the keys of the
    form other than [__proto__], each once, and whose values are all strings
    (no type coercion). *)
Theorem flat_fields_object (raw : string) :
  has_key "payload" (URLSearchParams raw) = false ->
  exists fields,
    formParser JSON_parse URLSearchParams raw = Ok (JObj fields)
    /\ NoDup (keys fields)
    /\ (forall k, In k (keys fields)
                  <-> In k (keys (URLSearchParams raw)) /\ k <> "__proto__")
    /\ (forall k v, In (k, v) fields -> exists s, v = JStr s).
Proof.
  intros Hno. exists (fold_fields (URLSearchParams raw) []).
  split; [unfold formParser; now rewrite Hno |].
  split; [apply NoDup_fold_fields; constructor |].
  split.
  - intros k. split.
    + intros H. destruct (fold_fields_keys _ _ _ H) as [[] | H']. exact H'.
    + intros [Hin Hne]. apply lookup_In_keys.
      destruct (last_value_present k _ Hin) as [s Hs].
      exists (JStr s). rewrite lookup_fold_fields by exact Hne. now rewrite Hs.
  - intros k v H. destruct (fold_fields_values _ _ _ _ H) as [[] | H']. exact H'.
Qed.

(** X19. The form parser fails in one way only: with an error of status 400
    whose message starts with "Invalid JSON in payload: ", when there is a
    [payload] field that [JSON.parse] refuses. *)
Theorem formParser_fails_only_on_payload (raw : string) (e : error) :
  formParser JSON_parse URLSearchParams raw = Throw e ->
  exists payload err,
    lookup "payload" (URLSearchParams raw) = Some payload
    /\ JSON_parse payload = Throw err
    /\ e = mkError ("Invalid JSON in payload: " ++ message err) (Some 400%Z).
Proof.
  unfold formParser, has_key.
  destruct (lookup "payload" (URLSearchParams raw)) as [payload |] eqn:Hlk; [| discriminate].
  destruct (JSON_parse payload) as [v | err] eqn:Hparse; [discriminate |].
  intros H. injection H as <-. exists payload, err. auto.
Qed.

(** X20. The route handler calls the message handler exactly once, first.
    When the handler returns, nothing is logged and no reply is sent by the
    route handler itself; when it throws, the error is logged once and then
    the 500 reply is sent. *)
Theorem post_handler_effects (body : json) :
  (forall r, onMessage body = Ok r ->
     trace (post_handler onMessage body) = [Handler body])
  /\ (forall err, onMessage body = Throw err ->
        trace (post_handler onMessage body)
        = [ Handler body;
            LogError err "Error processing Synology Chat webhook";
            ReplySend 500 (JObj [("success", JBool false);
                                 ("error", JStr (message err))]) ]).
Proof.
  unfold post_handler, perform, bind, try_catch.
  split.
  - intros r H. rewrite H. now destruct r as [[] |].
  - intros err H. now rewrite H.
Qed.

End SenderAndParser.

(** ** Registration *)

(** X21. Registration fails on its options in two cases: when the handler
    is declared required and none is given, with "onMessage callback is
    required when required option is true"; and when [onMessage] is given and
    is not a function, with "onMessage must be a function", whether or not it
    is required. *)
Theorem synologyChat_option_errors (options : plugin_options) :
  (opt_onMessage options = None -> opt_required options = true ->
   synologyChat options
   = Throw (Error "onMessage callback is required when required option is true"))
  /\ (forall v, opt_onMessage options = Some (GivenOther v) ->
      synologyChat options = Throw (Error "onMessage must be a function")).
Proof.
  unfold synologyChat. split.
  - intros -> ->. reflexivity.
  - intros v ->. simpl. now rewrite Bool.andb_false_r.
Qed.

(** X22. A registration that succeeds sets up the route at the given path,
    or at [/synology-chat] when none is given, keeps the given [webhookUrl]
    as the default of [sendMessage], and calls the given function as handler,
    or [defaultHandler] when none is given. *)
Theorem synologyChat_registers (options : plugin_options) (reg : registration) :
  synologyChat options = Ok reg ->
  route_path reg = match opt_path options with Some p => p | None => "/synology-chat" end
  /\ default_webhookUrl reg = opt_webhookUrl options
  /\ ((exists f, opt_onMessage options = Some (GivenFunction f) /\ route_onMessage reg = f)
      \/ (opt_onMessage options = None /\ opt_required options = false
          /\ route_onMessage reg = defaultHandler)).
Proof.
  unfold synologyChat.
  destruct (opt_onMessage options) as [[f | v] |]; destruct (opt_required options); simpl;
    try discriminate; intros H; injection H as <-; simpl;
    repeat split; eauto.
Qed.

(** X23. Registered without a handler (and without requiring one), the
    plugin answers every message: the route handler calls [defaultHandler]
    and returns [{success: true}], without logging or sending an error. *)
Theorem default_registration_answers_success (options : plugin_options) :
  opt_onMessage options = None ->
  opt_required options = false ->
  exists reg,
    synologyChat options = Ok reg
    /\ forall body,
         post_handler (route_onMessage reg) body
         = ([Handler body], Ok (Value (JObj [("success", JBool true)]))).
Proof.
  intros Hnone Hreq. unfold synologyChat. rewrite Hnone, Hreq. simpl.
  eexists. split; [reflexivity |]. intros body. reflexivity.
Qed.

(** ** The route [GET /send-simple] *)

Section SendSimpleProperties.

Variable parseInt : string -> option Z.
Variable JSON_stringify : json -> string.
Variable fetch : string -> request -> result response.
Variable SYNOLOGY_WEBHOOK_URL : option string.

Set Default Proof Using "Type".

Lemma WEBHOOK_URL_is_set : WEBHOOK_URL SYNOLOGY_WEBHOOK_URL <> EmptyString.
Proof.
  unfold WEBHOOK_URL, js_or.
  destruct SYNOLOGY_WEBHOOK_URL as [u |]; simpl; [| discriminate].
  destruct (String.eqb_spec u EmptyString); simpl; [discriminate | assumption].
Qed.

(** X25. The route makes exactly one request, to the URL of the environment
    variable when that is set and not empty and to the placeholder
    [YOUR_WEBHOOK_URL] otherwise, and it never ends by throwing: when
    [sendMessage] returns, the route returns a report with [success: true]
    holding the message sent and the result; when [sendMessage] throws, the
    error is logged and the request is answered with status 500 and
    [{success: false, error: <the error's message>}]. *)
Theorem send_simple_answers (query : querystring) :
  (forall result,
     completion (sendMessage JSON_stringify fetch (Some (WEBHOOK_URL SYNOLOGY_WEBHOOK_URL))
                             (messagePayload parseInt query) None) = Ok result ->
     exists report,
       send_simple parseInt JSON_stringify fetch SYNOLOGY_WEBHOOK_URL query
       = ([Fetch (WEBHOOK_URL SYNOLOGY_WEBHOOK_URL)
                 (post_request JSON_stringify (messagePayload parseInt query))],
          Ok (Value (JObj report)))
       /\ lookup "success" report = Some (JBool true)
       /\ lookup "sent" report = Some (messagePayload parseInt query)
       /\ lookup "result" report = Some result)
  /\ (forall err,
        completion (sendMessage JSON_stringify fetch (Some (WEBHOOK_URL SYNOLOGY_WEBHOOK_URL))
                                (messagePayload parseInt query) None) = Throw err ->
        send_simple parseInt JSON_stringify fetch SYNOLOGY_WEBHOOK_URL query
        = ([Fetch (WEBHOOK_URL SYNOLOGY_WEBHOOK_URL)
                  (post_request JSON_stringify (messagePayload parseInt query));
            LogError err EmptyString;
            ReplySend 500 (server_error err)],
           Ok (Replied 500 (server_error err)))).
Proof.
  assert (Htrace : trace (sendMessage JSON_stringify fetch
                            (Some (WEBHOOK_URL SYNOLOGY_WEBHOOK_URL))
                            (messagePayload parseInt query) None)
                   = [Fetch (WEBHOOK_URL SYNOLOGY_WEBHOOK_URL)
                            (post_request JSON_stringify (messagePayload parseInt query))]).
  { rewrite trace_sendMessage. unfold js_or. simpl.
    destruct (String.eqb_spec (WEBHOOK_URL SYNOLOGY_WEBHOOK_URL) EmptyString) as [H | _].
    - now destruct (WEBHOOK_URL_is_set).
    - unfold messagePayload, format_message. reflexivity. }
  unfold send_simple, completion, trace in *.
  destruct (sendMessage JSON_stringify fetch (Some (WEBHOOK_URL SYNOLOGY_WEBHOOK_URL))
                        (messagePayload parseInt query) None) as [t r].
  simpl in Htrace. subst t.
  split.
  - intros result H. simpl in H. subst r. simpl.
    eexists. split; [reflexivity |]. repeat split.
  - intros err H. simpl in H. subst r. reflexivity.
Qed.

End SendSimpleProperties.

(** ** The further properties on concrete input *)

Lemma message_text_is_required_witness :
  has_key "text" [("attachments", JArr [JObj [("text", JStr "Attachment text")]])] = false
  /\ In (mkVerror [] (KRequired "text"))
        (validate any_format messageSchema
           (JObj [("attachments", JArr [JObj [("text", JStr "Attachment text")]])]))
  /\ In (mkVerror [] (KRequired "text"))
        (validate any_format webhookSchema
           (JObj [("attachments", JArr [JObj [("text", JStr "Attachment text")]])])).
Proof.
  split; [reflexivity |].
  exact (message_text_is_required any_format
           [("attachments", JArr [JObj [("text", JStr "Attachment text")]])] eq_refl).
Defined.

Lemma attachment_text_is_required_witness :
  In (mkVerror [Key "attachments"; Idx 0] (KRequired "text"))
     (validate any_format messageSchema (JObj purple_link))
  /\ In (mkVerror [Key "attachments"; Idx 0] (KRequired "text"))
        (validate any_format webhookSchema (JObj purple_link)).
Proof.
  exact (attachment_text_is_required any_format purple_link 0 _ eq_refl eq_refl).
Defined.

Lemma action_fields_are_required_witness :
  In (mkVerror [Key "attachments"; Idx 0; Key "actions"; Idx 0] (KRequired "value"))
     (validate any_format messageSchema (JObj purple_link))
  /\ In (mkVerror [Key "attachments"; Idx 0; Key "actions"; Idx 0] (KRequired "value"))
        (validate any_format webhookSchema (JObj purple_link)).
Proof.
  apply (action_fields_are_required any_format purple_link 0 0 _ "value" eq_refl);
    [simpl; tauto | reflexivity].
Defined.

Lemma action_type_must_be_button_witness :
  In (mkVerror [Key "attachments"; Idx 0; Key "actions"; Idx 0; Key "type"] KEnum)
     (validate any_format messageSchema (JObj purple_link))
  /\ In (mkVerror [Key "attachments"; Idx 0; Key "actions"; Idx 0; Key "type"] KEnum)
        (validate any_format webhookSchema (JObj purple_link)).
Proof.
  destruct (action_type_must_be_button any_format purple_link 0 0 (JStr "link") eq_refl)
    as [Hout Hin]; [discriminate |].
  split; [exact Hout | exact (Hin eq_refl)].
Defined.

Lemma action_style_must_be_listed_witness :
  In (mkVerror [Key "attachments"; Idx 0; Key "actions"; Idx 0; Key "style"] KEnum)
     (validate any_format messageSchema (JObj purple_link))
  /\ In (mkVerror [Key "attachments"; Idx 0; Key "actions"; Idx 0; Key "style"] KEnum)
        (validate any_format webhookSchema (JObj purple_link)).
Proof.
  destruct (action_style_must_be_listed any_format purple_link 0 0 (JStr "purple") eq_refl)
    as [Hout Hin].
  - intros s [<- | [<- | [<- | [<- | [<- | [<- | []]]]]]]; discriminate.
  - split; [exact Hout | exact (Hin eq_refl)].
Defined.

Lemma outbound_rejects_unknown_properties_witness :
  In (mkVerror [] (KAdditionalProperties "colour"))
     (validate any_format messageSchema (JObj purple_link))
  /\ In (mkVerror [Key "attachments"; Idx 0] (KAdditionalProperties "title"))
        (validate any_format messageSchema (JObj purple_link))
  /\ In (mkVerror [Key "attachments"; Idx 0; Key "actions"; Idx 0]
                  (KAdditionalProperties "url"))
        (validate any_format messageSchema (JObj purple_link)).
Proof.
  destruct (outbound_rejects_unknown_properties any_format purple_link) as [H1 [H2 H3]].
  split; [| split].
  - apply H1; [simpl; tauto |].
    intros [H | [H | [H | [H | []]]]]; discriminate.
  - apply (H2 0 _ "title" eq_refl); [simpl; tauto |].
    intros [H | [H | [H | []]]]; discriminate.
  - apply (H3 0 0 _ "url" eq_refl); [simpl; tauto |].
    intros [H | [H | [H | [H | [H | []]]]]]; discriminate.
Defined.

Lemma inbound_never_reports_unknown_properties_witness :
  In (mkVerror [Key "attachments"; Idx 0; Key "actions"; Idx 0; Key "style"] KEnum)
     (validate any_format webhookSchema (JObj purple_link))
  /\ (forall k, KEnum <> KAdditionalProperties k)
  /\ (forall f, KEnum <> KFormat f)
  /\ KEnum <> KOneOf.
Proof.
  assert (H : In (mkVerror [Key "attachments"; Idx 0; Key "actions"; Idx 0; Key "style"] KEnum)
                 (validate any_format webhookSchema (JObj purple_link)))
    by (simpl; tauto).
  split; [exact H |].
  exact (inbound_never_reports_unknown_properties any_format (JObj purple_link) _ H).
Defined.

Lemma inbound_reads_four_properties_witness :
  validate any_format webhookSchema (JObj [("text", JStr "hi")])
  = validate any_format webhookSchema
      (JObj [("text", JStr "hi"); ("user", JObj [("user_id", JNum 7)])]).
Proof.
  apply (inbound_reads_four_properties any_format).
  intros k [<- | [<- | [<- | [<- | []]]]]; reflexivity.
Defined.

Lemma valid_outbound_payload_is_valid_inbound_witness :
  validate any_format messageSchema (JStr "Hello world") = []
  /\ validate any_format messageSchema (JObj [("text", JStr "Hello world")]) = []
  /\ validate any_format webhookSchema (JObj [("text", JStr "Hello world")]) = [].
Proof.
  split; [reflexivity |].
  exact (valid_outbound_payload_is_valid_inbound any_format (JStr "Hello world") eq_refl).
Defined.

Lemma sendMessage_failure_names_status_witness :
  completion (sendMessage Reference.JSON_stringify bad_request_fetch
                          (Some "https://example.com/webhook") (JStr "test message") None)
  = Throw (Error "Failed to send message to Synology Chat: 400 Bad Request").
Proof.
  apply (sendMessage_failure_names_status Reference.JSON_stringify bad_request_fetch
           (Some "https://example.com/webhook") (JStr "test message") None
           "https://example.com/webhook"
           (mkResponse false 400 (Throw Reference.SyntaxError) (Ok "Bad Request"))
           "Bad Request");
    first [reflexivity | discriminate].
Defined.

Lemma sendMessage_passes_errors_on_witness :
  completion (sendMessage Reference.JSON_stringify failing_fetch
                          (Some "https://example.com/webhook") (JStr "test message") None)
  = Throw (Error "fetch failed").
Proof.
  apply (proj1 (sendMessage_passes_errors_on Reference.JSON_stringify failing_fetch
                  (Some "https://example.com/webhook") (JStr "test message") None
                  "https://example.com/webhook" (Error "fetch failed") eq_refl
                  ltac:(discriminate))).
  reflexivity.
Defined.

Lemma sendMessage_returns_only_on_success_witness :
  completion (sendMessage Reference.JSON_stringify ack_fetch
                          (Some "https://example.com/webhook") (JStr "test message") None)
  = Ok (JObj [("success", JBool true)])
  /\ exists target r,
       js_or None (Some "https://example.com/webhook") = Some target
       /\ ack_fetch target (post_request Reference.JSON_stringify
                                         (format_message (JStr "test message"))) = Ok r
       /\ res_ok r = true
       /\ (res_json r = Ok (JObj [("success", JBool true)])
           \/ exists e raw, res_json r = Throw e /\ res_text r = Ok raw
                            /\ JObj [("success", JBool true)]
                               = JObj [("success", JBool true); ("raw", JStr raw)]).
Proof.
  split; [reflexivity |].
  exact (sendMessage_returns_only_on_success Reference.JSON_stringify ack_fetch
           (Some "https://example.com/webhook") (JStr "test message") None
           (JObj [("success", JBool true)]) eq_refl).
Defined.

Lemma payload_field_decides_witness :
  lookup "payload"
         (Reference.URLSearchParams
            "token=abc&payload=%7B%22text%22%3A%22Hello%22%7D&payload=1&text=ignored")
  = Some hello_text
  /\ formParser Reference.JSON_parse Reference.URLSearchParams
       "token=abc&payload=%7B%22text%22%3A%22Hello%22%7D&payload=1&text=ignored"
     = Ok (JObj [("text", JStr "Hello")]).
Proof.
  split; [reflexivity |].
  apply (payload_field_decides Reference.JSON_parse Reference.URLSearchParams
           "token=abc&payload=%7B%22text%22%3A%22Hello%22%7D&payload=1&text=ignored"
           hello_text);
    reflexivity.
Defined.

Lemma flat_fields_object_witness :
  exists fields,
    formParser Reference.JSON_parse Reference.URLSearchParams
               "text=Hello&user_ids=5&__proto__=x&text=World"
    = Ok (JObj fields)
    /\ NoDup (keys fields)
    /\ (forall k, In k (keys fields)
                  <-> In k (keys (Reference.URLSearchParams
                                    "text=Hello&user_ids=5&__proto__=x&text=World"))
                      /\ k <> "__proto__")
    /\ (forall k v, In (k, v) fields -> exists s, v = JStr s).
Proof.
  exact (flat_fields_object Reference.JSON_parse Reference.URLSearchParams
           "text=Hello&user_ids=5&__proto__=x&text=World" eq_refl).
Defined.

Lemma formParser_fails_only_on_payload_witness :
  formParser Reference.JSON_parse Reference.URLSearchParams "payload=%7Bbad"
  = Throw (mkError "Invalid JSON in payload: Unexpected token in JSON" (Some 400%Z))
  /\ exists payload err,
       lookup "payload" (Reference.URLSearchParams "payload=%7Bbad") = Some payload
       /\ Reference.JSON_parse payload = Throw err
       /\ mkError "Invalid JSON in payload: Unexpected token in JSON" (Some 400%Z)
          = mkError ("Invalid JSON in payload: " ++ message err) (Some 400%Z).
Proof.
  split; [reflexivity |].
  exact (formParser_fails_only_on_payload Reference.JSON_parse Reference.URLSearchParams
           "payload=%7Bbad" _ eq_refl).
Defined.

Lemma synologyChat_option_errors_witness :
  synologyChat (mkOptions None None true None)
  = Throw (Error "onMessage callback is required when required option is true")
  /\ synologyChat (mkOptions None (Some (GivenOther (JStr "not a function"))) true None)
     = Throw (Error "onMessage must be a function").
Proof.
  split.
  - exact (proj1 (synologyChat_option_errors (mkOptions None None true None))
                 eq_refl eq_refl).
  - exact (proj2 (synologyChat_option_errors
                    (mkOptions None (Some (GivenOther (JStr "not a function"))) true None))
                 (JStr "not a function") eq_refl).
Defined.

Lemma synologyChat_registers_witness :
  synologyChat (mkOptions (Some "/webhook") (Some (GivenFunction defaultHandler)) true
                          (Some "https://example.com/webhook"))
  = Ok (mkRegistration "/webhook" defaultHandler (Some "https://example.com/webhook"))
  /\ route_path (mkRegistration "/webhook" defaultHandler (Some "https://example.com/webhook"))
     = "/webhook".
Proof.
  split; [reflexivity |].
  exact (proj1 (synologyChat_registers
                  (mkOptions (Some "/webhook") (Some (GivenFunction defaultHandler)) true
                             (Some "https://example.com/webhook"))
                  _ eq_refl)).
Defined.

Lemma default_registration_answers_success_witness :
  exists reg,
    synologyChat (mkOptions None None false None) = Ok reg
    /\ forall body,
         post_handler (route_onMessage reg) body
         = ([Handler body], Ok (Value (JObj [("success", JBool true)]))).
Proof.
  exact (default_registration_answers_success (mkOptions None None false None)
           eq_refl eq_refl).
Defined.
